(** * redash-mcp: the Redash query client and its HTTP gateway

    A shallow embedding of [app/redash_client.py] (class [RedashClient]) and
    of the request handlers of [app/main.py].

    - Python values that [response.json()] can produce are the inductive
      [value]; a [dict] is an association list in insertion order, looked up
      by its first binding of a key.
    - f-strings whose holes are filled with such values (URLs, exception
      messages) are kept as [text]: literal pieces and [str(v)] pieces.
    - Pure code that may raise lives in [res]; code that talks to the Redash
      service or sleeps lives in the monad [M], which threads a [state]
      (number of HTTP exchanges so far, log of requests and sleeps) and
      answers the [k]-th exchange with [server k].
    - [while True] is a fixpoint on a fuel argument; [Running] is the outcome
      of a loop that has not left after that many iterations.
    - Calls to [logger] do not influence any result and are left out, and
      so is [except Exception as e: logger.error(...); raise], which raises
      the same exception again.  The service always answers: failures of
      the connection itself are not part of the model. *)

From Stdlib Require Import ZArith List String Bool Lia.
From Stdlib Require Import Floats.PrimFloat.
Import ListNotations.

Set Warnings "-register-all".

Open Scope string_scope.
Open Scope Z_scope.

(* ================================================================== *)
(** ** Python values *)

Inductive value : Type :=
| VNone
| VBool (b : bool)
| VInt (z : Z)
| VFloat (f : float)
| VStr (s : string)
| VList (l : list value)
| VDict (d : list (string * value)).

Definition dict := list (string * value).

(** A piece of an f-string: literal text, or [str(v)] of a value. *)
Inductive frag : Type :=
| Lit (s : string)
| Str (v : value).

Definition text := list frag.

(** The exceptions the two modules can meet.  [Exception] and [ValueError]
    are the ones the source raises itself; [HTTPError] is what
    [raise_for_status] raises, [JSONDecodeError] what [response.json()]
    raises, [KeyError], [TypeError] and [AttributeError] what subscripts,
    [in] and [.get] raise on values of the wrong shape. *)
Inductive exn : Type :=
| HTTPError (status_code : Z)
| JSONDecodeError
| KeyError (key : string)
| TypeError
| AttributeError
| Exception (msg : text)
| ValueError (msg : text).

Inductive res (A : Type) : Type :=
| Ok (a : A)
| Err (e : exn).
Arguments Ok {A} a.
Arguments Err {A} e.

Definition res_bind {A B} (m : res A) (k : A -> res B) : res B :=
  match m with
  | Ok a => k a
  | Err e => Err e
  end.

Declare Scope res_scope.
Delimit Scope res_scope with res.
Notation "x <- m ;; k" := (res_bind m (fun x => k))
  (at level 61, m at next level, right associativity) : res_scope.

(** *** Primitive operations of the language, on [value] *)

Fixpoint lookup (k : string) (d : dict) : option value :=
  match d with
  | [] => None
  | (k', v) :: d' => if String.eqb k k' then Some v else lookup k d'
  end.

(** [bool(v)]. *)
Definition truthy (v : value) : bool :=
  match v with
  | VNone => false
  | VBool b => b
  | VInt z => negb (z =? 0)
  | VFloat f => negb (PrimFloat.eqb f 0%float)
  | VStr s => negb (String.eqb s "")
  | VList l => match l with [] => false | _ => true end
  | VDict d => match d with [] => false | _ => true end
  end.

(** [v.get(k, default)]: only a dict has the method. *)
Definition get (v : value) (k : string) (default : value) : res value :=
  match v with
  | VDict d => Ok (match lookup k d with Some x => x | None => default end)
  | _ => Err AttributeError
  end.

(** [v[k]] for a string [k]. *)
Definition getitem (v : value) (k : string) : res value :=
  match v with
  | VDict d => match lookup k d with Some x => Ok x | None => Err (KeyError k) end
  | _ => Err TypeError
  end.

Fixpoint is_infix (k s : string) : bool :=
  String.prefix k s ||
  match s with
  | EmptyString => false
  | String _ s' => is_infix k s'
  end.

(** [k in v] for a string [k]: key of a dict, element of a list, substring
    of a string; [TypeError] on anything else. *)
Definition contains (k : string) (v : value) : res bool :=
  match v with
  | VDict d => Ok (match lookup k d with Some _ => true | None => false end)
  | VList l =>
      Ok (existsb (fun x => match x with VStr s => String.eqb k s | _ => false end) l)
  | VStr s => Ok (is_infix k s)
  | _ => Err TypeError
  end.

(** [list(v.keys())]. *)
Definition keys (v : value) : res value :=
  match v with
  | VDict d => Ok (VList (map (fun kv => VStr (fst kv)) d))
  | _ => Err AttributeError
  end.

Definition isinstance_dict (v : value) : bool :=
  match v with
  | VDict _ => true
  | _ => false
  end.

Fixpoint float_of_pos (p : positive) : float :=
  match p with
  | xH => 1%float
  | xO p' => PrimFloat.mul 2%float (float_of_pos p')
  | xI p' => PrimFloat.add (PrimFloat.mul 2%float (float_of_pos p')) 1%float
  end.

Definition float_of_Z (n : Z) : float :=
  match n with
  | Z0 => 0%float
  | Zpos p => float_of_pos p
  | Zneg p => PrimFloat.opp (float_of_pos p)
  end.

(** [v == n] for an integer constant [n] (exact for the small constants of
    this program: a float is compared with the float of the same value, and
    [True]/[False] count as 1/0). *)
Definition eq_int (v : value) (n : Z) : bool :=
  match v with
  | VInt z => z =? n
  | VBool b => (if b then 1 else 0) =? n
  | VFloat f => PrimFloat.eqb f (float_of_Z n)
  | _ => false
  end.

(* ================================================================== *)
(** ** redash_client.py: constants and the pure normalizer *)

Module QUERY_STATUS.
Definition COMPLETED : Z := 3.
Definition FAILED : Z := 4.
End QUERY_STATUS.

Definition POLL_INTERVAL : Z := 1.

Definition _format_query_result (result : value) (query : string) : res value :=
  (query_result <- get result "query_result" result ;;
   if negb (truthy query_result) then
     Err (Exception [Lit "No query result in response"])
   else
     id <- get query_result "id" VNone ;;
     query' <- (if truthy (VStr query) then Ok (VStr query)
                else get query_result "query" (VStr "")) ;;
     data <- get query_result "data" (VDict []) ;;
     columns <- get data "columns" (VList []) ;;
     data' <- get query_result "data" (VDict []) ;;
     rows <- get data' "rows" (VList []) ;;
     data_source_id <- get query_result "data_source_id" VNone ;;
     runtime <- get query_result "runtime" (VInt 0) ;;
     retrieved_at <- get query_result "retrieved_at" VNone ;;
     Ok (VDict
           [("query_result",
             VDict [("id", id);
                    ("query", query');
                    ("data", VDict [("columns", columns); ("rows", rows)]);
                    ("data_source_id", data_source_id);
                    ("runtime", runtime);
                    ("retrieved_at", retrieved_at)])]))%res.

(* ================================================================== *)
(** ** The world: the Redash service, the clock, and the monad [M] *)

Inductive verb : Type := GET | POST.

(** One call of [requests.get] / [requests.post]. *)
Record request : Type :=
  { method : verb;
    url : text;
    json : option value;
    headers : list (string * string) }.

(** What comes back: the HTTP status, and the body as [response.json()]
    reads it ([None]: the body is not JSON). *)
Record response : Type :=
  { status_code : Z;
    body : option value }.

Inductive event : Type :=
| Http (r : request)
| Sleep (seconds : Z).

Record state : Type :=
  { calls : nat;
    trace : list event }.

Inductive outcome (E A : Type) : Type :=
| Return (a : A)
| Raise (e : E)
| Running.
Arguments Return {E A} a.
Arguments Raise {E A} e.
Arguments Running {E A}.

Definition M (E A : Type) : Type := state -> outcome E A * state.

Definition ret {E A} (a : A) : M E A := fun st => (Return a, st).

Definition raise {E A} (e : E) : M E A := fun st => (Raise e, st).

Definition bind {E A B} (m : M E A) (k : A -> M E B) : M E B :=
  fun st =>
    match m st with
    | (Return a, st') => k a st'
    | (Raise e, st') => (Raise e, st')
    | (Running, st') => (Running, st')
    end.

Definition lift {A} (r : res A) : M exn A :=
  match r with
  | Ok a => ret a
  | Err e => raise e
  end.

(** [try: m except Exception as e: h e]. *)
Definition try_except {E A} (m : M exn A) (h : exn -> M E A) : M E A :=
  fun st =>
    match m st with
    | (Return a, st') => (Return a, st')
    | (Raise e, st') => h e st'
    | (Running, st') => (Running, st')
    end.

Declare Scope monad_scope.
Delimit Scope monad_scope with M.
Notation "x <- m ;; k" := (bind m (fun x => k))
  (at level 61, m at next level, right associativity) : monad_scope.
Notation "m ;; k" := (bind m (fun _ => k))
  (at level 61, right associativity) : monad_scope.

(** [r.raise_for_status()] of the requests library: 4xx and 5xx raise. *)
Definition http_error (code : Z) : bool := (400 <=? code) && (code <? 600).

Definition raise_for_status (r : response) : res unit :=
  if http_error (status_code r) then Err (HTTPError (status_code r)) else Ok tt.

(** [r.json()]. *)
Definition json_of (r : response) : res value :=
  match body r with
  | Some v => Ok v
  | None => Err JSONDecodeError
  end.

Module RedashClient.
Record t : Type :=
  { base_url : string;
    api_key : string;
    data_source_id : Z }.

(** [self.headers], as [__init__] builds it. *)
Definition headers (self : t) : list (string * string) :=
  [("Authorization", "Key " ++ api_key self);
   ("Content-Type", "application/json")].
End RedashClient.

Section Client.

(** [hashlib.md5(bytes).hexdigest()]. *)
Variable md5_hexdigest : string -> string.

(** The service: the answer to the [k]-th HTTP exchange of the run. *)
Variable server : nat -> response.

Variable self : RedashClient.t.

Definition requests (r : request) : M exn response :=
  fun st =>
    (Return (server (calls st)),
     {| calls := S (calls st); trace := trace st ++ [Http r] |}).

Definition requests_get (u : text) (hs : list (string * string)) : M exn response :=
  requests {| method := GET; url := u; json := None; headers := hs |}.

Definition requests_post (u : text) (js : option value)
    (hs : list (string * string)) : M exn response :=
  requests {| method := POST; url := u; json := js; headers := hs |}.

Definition time_sleep (seconds : Z) : M exn unit :=
  fun st =>
    (Return tt, {| calls := calls st; trace := trace st ++ [Sleep seconds] |}).

Definition data_sources_url : text :=
  [Lit (RedashClient.base_url self); Lit "/api/data_sources"].
Definition queries_url : text :=
  [Lit (RedashClient.base_url self); Lit "/api/queries"].
Definition results_url (query_id : value) : text :=
  [Lit (RedashClient.base_url self); Lit "/api/queries/"; Str query_id; Lit "/results"].
Definition jobs_url (job_id : value) : text :=
  [Lit (RedashClient.base_url self); Lit "/api/jobs/"; Str job_id].
Definition query_results_url (result_id : value) : text :=
  [Lit (RedashClient.base_url self); Lit "/api/query_results/"; Str result_id].

Definition list_data_sources : M exn value :=
  (response <- requests_get data_sources_url (RedashClient.headers self) ;;
   lift (raise_for_status response) ;;
   lift (json_of response))%M.

Definition _get_query_hash (query : string) : string := md5_hexdigest query.

Fixpoint _poll_job_status (fuel : nat) (job_id : value) : M exn value :=
  match fuel with
  | O => fun st => (Running, st)
  | S fuel' =>
      (job_status <- requests_get (jobs_url job_id) (RedashClient.headers self) ;;
       lift (raise_for_status job_status) ;;
       status_data <- lift (json_of job_status) ;;
       job <- lift (getitem status_data "job") ;;
       status <- lift (getitem job "status") ;;
       if eq_int status QUERY_STATUS.COMPLETED then
         lift (getitem status_data "job")
       else if eq_int status QUERY_STATUS.FAILED then
         job' <- lift (getitem status_data "job") ;;
         error <- lift (get job' "error" (VStr "Unknown error")) ;;
         raise (Exception [Lit "Query execution failed: "; Str error])
       else
         time_sleep POLL_INTERVAL ;;
         _poll_job_status fuel' job_id)%M
  end.

(** The part shared by both execution paths once a job id is known:
    wait, read the result id, fetch and normalize. *)
Definition wait_and_fetch (fuel : nat) (job_id : value) (query : string) : M exn value :=
  (job_result <- _poll_job_status fuel job_id ;;
   result_id <- lift (getitem job_result "query_result_id") ;;
   result_response <- requests_get (query_results_url result_id)
                        (RedashClient.headers self) ;;
   lift (raise_for_status result_response) ;;
   result_data <- lift (json_of result_response) ;;
   lift (_format_query_result result_data query))%M.

Definition execute_query (fuel : nat) (query : string) (data_source_id : option Z)
    : M exn value :=
  let data_source_id :=
    match data_source_id with
    | Some z => if z =? 0 then RedashClient.data_source_id self else z
    | None => RedashClient.data_source_id self
    end in
  let query_data :=
    VDict [("query", VStr query);
           ("data_source_id", VInt data_source_id);
           ("name", VStr ("MCP Query - " ++ substring 0 8 (_get_query_hash query)))] in
  (response <- requests_post queries_url (Some query_data) (RedashClient.headers self) ;;
   lift (raise_for_status response) ;;
   created <- lift (json_of response) ;;
   query_id <- lift (getitem created "id") ;;
   job_response <- requests_post (results_url query_id) None (RedashClient.headers self) ;;
   lift (raise_for_status job_response) ;;
   job_data <- lift (json_of job_response) ;;
   immediate <- lift (contains "query_result" job_data) ;;
   if immediate then
     lift (_format_query_result job_data query)
   else
     queued <- lift (contains "job" job_data) ;;
     if queued then
       job <- lift (getitem job_data "job") ;;
       job_id <- lift (getitem job "id") ;;
       wait_and_fetch fuel job_id query
     else
       ks <- lift (keys job_data) ;;
       raise (Exception [Lit "Invalid response format. Keys: "; Str ks]))%M.

Definition execute_predefined_query (fuel : nat) (query_id : Z)
    (parameters : option dict) : M exn value :=
  let job_data :=
    match parameters with
    | Some p => if truthy (VDict p) then VDict [("parameters", VDict p)] else VDict []
    | None => VDict []
    end in
  (job_response <- requests_post (results_url (VInt query_id)) (Some job_data)
                     (RedashClient.headers self) ;;
   lift (raise_for_status job_response) ;;
   answer <- lift (json_of job_response) ;;
   queued <- lift (contains "job" answer) ;;
   if negb queued then
     raise (Exception [Lit "Invalid response format: "; Str answer])
   else
     job <- lift (getitem answer "job") ;;
     job_id <- lift (getitem job "id") ;;
     wait_and_fetch fuel job_id "")%M.

End Client.

(* ================================================================== *)
(** ** main.py: the gateway *)

Module QueryRequest.
Record t : Type :=
  { question : string;
    sql_query : option string }.
End QueryRequest.

Module PredefinedQueryRequest.
Record t : Type :=
  { parameters : option dict }.
End PredefinedQueryRequest.

(** The response model; its fields hold whatever the handler puts there
    (the field validation of the model class is not part of the embedding). *)
Module QueryResponse.
Record t : Type :=
  { answer : string;
    sql_query : value;
    data : value }.
End QueryResponse.

(** The detail text of an [HTTPException]: literal text and [str(e)]. *)
Inductive piece : Type :=
| Text (s : string)
| StrExn (e : exn).

Record HTTPException : Type :=
  { http_status : Z;
    detail : list piece }.

Definition HTTP_500_INTERNAL_SERVER_ERROR : Z := 500.

Section Gateway.

Variable md5_hexdigest : string -> string.
Variable server : nat -> response.

(** The module-level [redash_client]. *)
Variable redash_client : RedashClient.t.

Definition get_data_sources : M HTTPException value :=
  try_except
    (data_sources <- list_data_sources server redash_client ;;
     ret (VDict [("data_sources", data_sources)]))%M
    (fun e =>
       raise {| http_status := HTTP_500_INTERNAL_SERVER_ERROR;
                detail := [Text "Failed to fetch data sources: "; StrExn e] |}).

Definition ask_question (fuel : nat) (request : QueryRequest.t)
    : M HTTPException QueryResponse.t :=
  try_except
    (let sql_query :=
       match QueryRequest.sql_query request with
       | Some s => if truthy (VStr s) then s else QueryRequest.question request
       | None => QueryRequest.question request
       end in
     result <- execute_query md5_hexdigest server redash_client fuel sql_query None ;;
     has_result <- (if isinstance_dict result then lift (contains "query_result" result)
                    else ret false) ;;
     if negb has_result then
       raise (ValueError [Lit "Invalid response format from Redash"])
     else
       data <- lift (getitem result "query_result") ;;
       ret {| QueryResponse.answer := "Here are the results from your query";
              QueryResponse.sql_query := VStr sql_query;
              QueryResponse.data := data |})%M
    (fun e =>
       raise {| http_status := HTTP_500_INTERNAL_SERVER_ERROR;
                detail := [Text "Query execution failed: "; StrExn e] |}).

Definition ask_predefined_question (fuel : nat) (query_id : Z)
    (request : PredefinedQueryRequest.t) : M HTTPException QueryResponse.t :=
  try_except
    (result <- execute_predefined_query server redash_client fuel query_id
                 (PredefinedQueryRequest.parameters request) ;;
     query_result <- lift (get result "query_result" (VDict [])) ;;
     if negb (truthy query_result) then
       raise (ValueError [Lit "No query result in response"])
     else
       sql <- lift (get query_result "query" (VStr "")) ;;
       ret {| QueryResponse.answer := "Here are the results from your query";
              QueryResponse.sql_query := sql;
              QueryResponse.data := query_result |})%M
    (fun e =>
       raise {| http_status := HTTP_500_INTERNAL_SERVER_ERROR;
                detail := [StrExn e] |}).

End Gateway.

(* ================================================================== *)
(** ** Vocabulary of the specification *)

(** The three kinds of failure of the query client, by the exception the
    source raises for each. *)
Inductive UpstreamError : exn -> Prop :=
| upstream_status code : UpstreamError (HTTPError code).

Inductive ProtocolError : exn -> Prop :=
| protocol_no_result :
    ProtocolError (Exception [Lit "No query result in response"])
| protocol_keys ks :
    ProtocolError (Exception [Lit "Invalid response format. Keys: "; Str ks])
| protocol_answer v :
    ProtocolError (Exception [Lit "Invalid response format: "; Str v]).

Inductive QueryExecutionError : exn -> Prop :=
| execution_failed error :
    QueryExecutionError (Exception [Lit "Query execution failed: "; Str error]).

(** The payload the normalizer works on: the value under [query_result]
    when the raw mapping has that key, the raw mapping itself otherwise. *)
Definition payload (raw : dict) : value :=
  match lookup "query_result" raw with
  | Some v => v
  | None => VDict raw
  end.

(** The output on a truthy mapping payload whose [data] is absent or a
    mapping. *)
Definition normalized (p : dict) (query : string) (data : dict) : value :=
  VDict
    [("query_result",
      VDict [("id", match lookup "id" p with Some x => x | None => VNone end);
             ("query", if truthy (VStr query) then VStr query
                       else match lookup "query" p with
                            | Some x => x
                            | None => VStr ""
                            end);
             ("data",
              VDict [("columns", match lookup "columns" data with
                                 | Some x => x
                                 | None => VList []
                                 end);
                     ("rows", match lookup "rows" data with
                              | Some x => x
                              | None => VList []
                              end)]);
             ("data_source_id",
              match lookup "data_source_id" p with Some x => x | None => VNone end);
             ("runtime",
              match lookup "runtime" p with Some x => x | None => VInt 0 end);
             ("retrieved_at",
              match lookup "retrieved_at" p with Some x => x | None => VNone end)])].

(** The field of a normalized result, when [v] has that shape. *)
Definition field (v : value) (k : string) : option value :=
  match v with
  | VDict d =>
      match lookup "query_result" d with
      | Some (VDict q) => lookup k q
      | _ => None
      end
  | _ => None
  end.

Definition data_field (v : value) (k : string) : option value :=
  match field v "data" with
  | Some (VDict d) => lookup k d
  | _ => None
  end.

(** A job-status response as the polling loop reads it: a status that does
    not raise, a JSON body with a [job] mapping that has a [status].  Gives
    the job object and its status. *)
Definition job_status (r : response) : option (value * value) :=
  if http_error (status_code r) then None
  else
    match body r with
    | Some status_data =>
        match getitem status_data "job" with
        | Ok job =>
            match getitem job "status" with
            | Ok status => Some (job, status)
            | Err _ => None
            end
        | Err _ => None
        end
    | None => None
    end.

Definition completed (r : response) : bool :=
  match job_status r with
  | Some (_, status) => eq_int status QUERY_STATUS.COMPLETED
  | None => false
  end.

Definition failed (r : response) : bool :=
  match job_status r with
  | Some (_, status) =>
      negb (eq_int status QUERY_STATUS.COMPLETED) && eq_int status QUERY_STATUS.FAILED
  | None => false
  end.

Definition terminal (r : response) : bool := completed r || failed r.

Definition pending (r : response) : bool :=
  match job_status r with
  | Some _ => negb (terminal r)
  | None => false
  end.

(** The status fetch the polling loop issues on every tick. *)
Definition status_fetch (self : RedashClient.t) (job_id : value) : event :=
  Http {| method := GET;
          url := jobs_url self job_id;
          json := None;
          headers := RedashClient.headers self |}.

(** The events of [n] unfinished ticks of the polling loop: a status fetch
    followed by a sleep, [n] times. *)
Fixpoint ticks (fetch : event) (n : nat) : list event :=
  match n with
  | O => []
  | S n' => fetch :: Sleep POLL_INTERVAL :: ticks fetch n'
  end.

Definition is_sleep (ev : event) : bool :=
  match ev with
  | Sleep _ => true
  | Http _ => false
  end.

Definition sleeps (evs : list event) : nat := List.length (filter is_sleep evs).

Definition is_get (ev : event) : bool :=
  match ev with
  | Http r => match method r with GET => true | POST => false end
  | Sleep _ => false
  end.

(** The requests of the two execution paths, as they appear in the log. *)
Definition create_post (md5_hexdigest : string -> string) (self : RedashClient.t)
    (query : string) (data_source_id : Z) : event :=
  Http {| method := POST;
          url := queries_url self;
          json := Some (VDict
                          [("query", VStr query);
                           ("data_source_id", VInt data_source_id);
                           ("name", VStr ("MCP Query - " ++
                                          substring 0 8 (md5_hexdigest query)))]);
          headers := RedashClient.headers self |}.

Definition trigger_post (self : RedashClient.t) (query_id : value)
    (job_payload : option value) : event :=
  Http {| method := POST;
          url := results_url self query_id;
          json := job_payload;
          headers := RedashClient.headers self |}.

Definition result_fetch (self : RedashClient.t) (result_id : value) : event :=
  Http {| method := GET;
          url := query_results_url self result_id;
          json := None;
          headers := RedashClient.headers self |}.

(** *** Properties of runs *)

(** A run of [m] only adds to the log and to the count of exchanges, and
    an exchange of the run that was answered with an error status ended it
    with [HTTPError]. *)
Definition guarded (server : nat -> response) {A} (m : M exn A) : Prop :=
  forall st,
    (calls st <= calls (snd (m st)))%nat /\
    (exists evs, trace (snd (m st)) = (trace st ++ evs)%list) /\
    (forall k,
        (calls st <= k < calls (snd (m st)))%nat ->
        http_error (status_code (server k)) = true ->
        exists code, fst (m st) = Raise (HTTPError code)).

(** Every value a run of [m] returns satisfies [P]. *)
Definition returns {E A} (P : A -> Prop) (m : M E A) : Prop :=
  forall st a st', m st = (Return a, st') -> P a.

(** The shape of everything the normalizer returns. *)
Definition wrapped (out : value) : Prop :=
  exists inner, out = VDict [("query_result", VDict inner)].

(** The status of the [HTTPException] an endpoint answered with. *)
Definition http_status_of {A} (r : outcome HTTPException A) : option Z :=
  match r with
  | Raise h => Some (http_status h)
  | _ => None
  end.

(* ================================================================== *)
(** ** redash_client.py: construction of the client *)

Section Init.

(** [os.getenv]. *)
Variable getenv : string -> option string.

(** The builtin [int] on a string. *)
Variable int_of_str : string -> res Z.

(** [RedashClient.__init__]: the data source id is read, and converted,
    before the two required variables are checked. *)
Definition __init__ : res RedashClient.t :=
  (let base_url := getenv "REDASH_BASE_URL" in
   let api_key := getenv "REDASH_API_KEY" in
   data_source_id <-
     int_of_str match getenv "REDASH_DATA_SOURCE_ID" with
                | Some s => s
                | None => "6"
                end ;;
   match base_url, api_key with
   | Some b, Some a =>
       if truthy (VStr b) && truthy (VStr a) then
         Ok {| RedashClient.base_url := b;
               RedashClient.api_key := a;
               RedashClient.data_source_id := data_source_id |}
       else
         Err (ValueError
                [Lit "Missing required environment variables: REDASH_BASE_URL or REDASH_API_KEY"])
   | _, _ =>
       Err (ValueError
              [Lit "Missing required environment variables: REDASH_BASE_URL or REDASH_API_KEY"])
   end)%res.

End Init.

(* ================================================================== *)
(** ** Further vocabulary *)

(** The outcome of a pure computation, as a run reports it. *)
Definition outcome_of {A} (r : res A) : outcome exn A :=
  match r with
  | Ok a => Return a
  | Err e => Raise e
  end.




(** The data source a query is created on. *)
Definition effective_data_source (self : RedashClient.t) (data_source_id : option Z) : Z :=
  match data_source_id with
  | Some z => if z =? 0 then RedashClient.data_source_id self else z
  | None => RedashClient.data_source_id self
  end.

(** The query text the [/ask] handler runs. *)
Definition asked_sql (request : QueryRequest.t) : string :=
  match QueryRequest.sql_query request with
  | Some s => if truthy (VStr s) then s else QueryRequest.question request
  | None => QueryRequest.question request
  end.

(** The events of a finished wait: [n] unfinished ticks and the fetch that
    saw the terminal status. *)
Definition waited (self : RedashClient.t) (job_id : value) (n : nat) : list event :=
  (ticks (status_fetch self job_id) n ++ [status_fetch self job_id])%list.

(** The log of a wait of [fuel] iterations that started in [st] and gave
    [run]: still running after [fuel] fetches and sleeps, or left at a
    fetch that no sleep follows. *)
Definition poll_log (self : RedashClient.t) (job_id : value) (fuel : nat)
    (st : state) (run : outcome exn value * state) : Prop :=
  exists n,
    (fst run = Running /\ n = fuel /\
     calls (snd run) = (calls st + n)%nat /\
     trace (snd run) = (trace st ++ ticks (status_fetch self job_id) n)%list) \/
    (fst run <> Running /\ (n < fuel)%nat /\
     calls (snd run) = S (calls st + n) /\
     trace (snd run) = (trace st ++ waited self job_id n)%list).

(** The [k]-th exchange is answered, with a status that is not an error
    status, by the JSON value [v]. *)
Definition answers_json (server : nat -> response) (k : nat) (v : value) : Prop :=
  exists code,
    server k = {| status_code := code; body := Some v |} /\ http_error code = false.

(** From exchange [c] on the service reports [n] pending statuses and then
    the job object [job] with a status equal to completed. *)
Definition completes_after (server : nat -> response) (c n : nat) (job : dict) : Prop :=
  (forall k, (k < n)%nat -> pending (server (c + k)%nat) = true) /\
  exists status,
    job_status (server (c + n)%nat) = Some (VDict job, status) /\
    eq_int status QUERY_STATUS.COMPLETED = true.

(** The same, with a status equal to failed (and not to completed). *)
Definition fails_after (server : nat -> response) (c n : nat) (job : dict) : Prop :=
  (forall k, (k < n)%nat -> pending (server (c + k)%nat) = true) /\
  exists status,
    job_status (server (c + n)%nat) = Some (VDict job, status) /\
    eq_int status QUERY_STATUS.COMPLETED = false /\
    eq_int status QUERY_STATUS.FAILED = true.


(* ================================================================== *)
(** ** Concrete inputs used by the examples below *)

(** A raw result that carries only an identifier. *)
Definition raw_id_only : dict := [("id", VInt 7)].

(** A nested result whose [data] is [null]. *)
Definition raw_null_data : dict :=
  [("query_result", VDict [("id", VInt 1); ("data", VNone)])].

(** A complete result as the service sends it. *)
Definition raw_full : dict :=
  [("query_result",
    VDict [("id", VInt 42);
           ("query", VStr "SELECT 1");
           ("data", VDict [("columns", VList []); ("rows", VList [VList [VInt 1]])]);
           ("data_source_id", VInt 6);
           ("runtime", VFloat 0.25%float);
           ("retrieved_at", VStr "2024-01-01T00:00:00Z")])].

Definition client0 : RedashClient.t :=
  {| RedashClient.base_url := "http://redash.test";
     RedashClient.api_key := "secret";
     RedashClient.data_source_id := 6 |}.

Definition st0 : state := {| calls := 0; trace := [] |}.

Definition ok_json (v : value) : response :=
  {| status_code := 200; body := Some v |}.

(** A job-status answer with the given status and further job fields. *)
Definition job_answer (status : value) (more : dict) : response :=
  ok_json (VDict [("job", VDict (("status", status) :: more))]).

(** A service whose job is pending (status 1) for [n] fetches and then
    completed with result 99. *)
Definition server_completes_after (n : nat) : nat -> response :=
  fun k =>
    if (k <? n)%nat then job_answer (VInt 1) []
    else job_answer (VInt 3) [("query_result_id", VInt 99)].

(** A service whose job has failed, without saying why. *)
Definition server_failed : nat -> response :=
  fun _ => job_answer (VInt 4) [].

(** A service that gives the listed answers in turn, then [default]. *)
Definition script (answers : list response) (default : response) : nat -> response :=
  fun k => nth k answers default.

Definition unavailable : response := {| status_code := 503; body := None |}.

(** The answer to the creation of a query. *)
Definition created (query_id : Z) : response :=
  ok_json (VDict [("id", VInt query_id)]).

(** A trigger answer that carries the result itself. *)
Definition immediate_answer : value :=
  VDict [("query_result",
          VDict [("id", VInt 42);
                 ("data", VDict [("columns", VList []);
                                 ("rows", VList [VList [VInt 1]])])])].

(** A trigger answer that carries a job handle. *)
Definition queued_answer : value :=
  VDict [("job", VDict [("id", VStr "abc")])].

Definition server_immediate : nat -> response :=
  script [created 17; ok_json immediate_answer] unavailable.

Definition server_create_fails : nat -> response :=
  script [] unavailable.

Definition server_trigger_fails : nat -> response :=
  script [created 17] unavailable.

Definition server_poll_fails : nat -> response :=
  script [created 17; ok_json queued_answer; job_answer (VInt 1) []] unavailable.

Definition server_fetch_fails : nat -> response :=
  script [created 17; ok_json queued_answer;
          job_answer (VInt 3) [("query_result_id", VInt 99)]] unavailable.

(** A trigger answer with neither a result nor a job handle. *)
Definition server_no_handle : nat -> response :=
  script [created 17; ok_json (VDict [("message", VStr "queued")])] unavailable.

(** A job that fails with a message of the service. *)
Definition server_job_fails : nat -> response :=
  script [created 17; ok_json queued_answer;
          job_answer (VInt 4) [("error", VStr "syntax error")]] unavailable.

(** The trigger of a predefined query answered with the empty mapping. *)
Definition server_empty_answer : nat -> response :=
  script [ok_json (VDict [])] unavailable.

(** A stand-in for the digest function in the examples. *)
Definition digest0 : string -> string := fun _ => "0123456789abcdef0123456789abcdef".

(** An environment with the two required variables only. *)
Definition env_minimal : string -> option string :=
  fun name =>
    if String.eqb name "REDASH_BASE_URL" then Some "http://redash.test"
    else if String.eqb name "REDASH_API_KEY" then Some "secret"
    else None.

(** An environment whose API key is set but empty. *)
Definition env_empty_key : string -> option string :=
  fun name =>
    if String.eqb name "REDASH_BASE_URL" then Some "http://redash.test"
    else if String.eqb name "REDASH_API_KEY" then Some ""
    else None.

(** A stand-in for [int] that reads one decimal digit. *)
Definition int_digit : string -> res Z :=
  fun s =>
    if String.eqb s "6" then Ok 6
    else if String.eqb s "7" then Ok 7
    else Err (ValueError [Lit "invalid literal for int() with base 10: "; Str (VStr s)]).

(** A finished result as the service stores it. *)
Definition stored_result : value :=
  VDict [("query_result",
          VDict [("id", VInt 99);
                 ("query", VStr "SELECT name FROM users");
                 ("data", VDict [("columns", VList [VDict [("name", VStr "name")]]);
                                 ("rows", VList [VDict [("name", VStr "ada")]])]);
                 ("data_source_id", VInt 6);
                 ("runtime", VFloat 0.5%float);
                 ("retrieved_at", VStr "2024-01-01T00:00:00Z")])].

(** Creation, a job handle, one pending tick, completion, the stored result. *)
Definition server_async : nat -> response :=
  script [created 17; ok_json queued_answer;
          job_answer (VInt 2) [];
          job_answer (VInt 3) [("query_result_id", VInt 99)];
          ok_json stored_result] unavailable.

(** A predefined query: a job handle, completion, the stored result. *)
Definition server_predefined : nat -> response :=
  script [ok_json queued_answer;
          job_answer (VInt 3) [("query_result_id", VInt 99)];
          ok_json stored_result] unavailable.

(** A trigger answer with both a result and a job handle. *)
Definition server_both : nat -> response :=
  script [created 17;
          ok_json (VDict [("job", VDict [("id", VStr "abc")]);
                          ("query_result", VDict [("id", VInt 5)])])] unavailable.

(** A status answer without a [job] key, after one pending tick. *)
Definition server_malformed_status : nat -> response :=
  script [job_answer (VInt 1) []; ok_json (VDict [("message", VStr "gone")])] unavailable.

(** Data sources as the service lists them. *)
Definition server_sources : nat -> response :=
  script [ok_json (VList [VDict [("id", VInt 6); ("name", VStr "warehouse")]])] unavailable.

(** A job that completes without naming its result. *)
Definition server_no_result_id : nat -> response :=
  script [created 17; ok_json queued_answer; job_answer (VInt 3) []] unavailable.

Open Scope list_scope.

(* ================================================================== *)
(** ** The result normalizer *)

Section Normalizer.

Lemma get_dict (d : dict) (k : string) (default : value) :
  get (VDict d) k default =
  Ok (match lookup k d with Some x => x | None => default end).
Proof. reflexivity. Qed.

Lemma get_ok_inv (v : value) (k : string) (default out : value) :
  get v k default = Ok out ->
  exists d, v = VDict d /\
            out = match lookup k d with Some x => x | None => default end.
Proof.
  destruct v; simpl; try discriminate.
  intros H; injection H as <-. eauto.
Qed.

Lemma get_err_inv (v : value) (k : string) (default : value) (e : exn) :
  get v k default = Err e -> e = AttributeError.
Proof.
  destruct v; simpl; intros H; try discriminate; injection H as <-; reflexivity.
Qed.

(** What the first step of the normalizer works on. *)
Lemma format_payload (raw : dict) (query : string) :
  get (VDict raw) "query_result" (VDict raw) = Ok (payload raw).
Proof. reflexivity. Qed.

Lemma format_falsy (raw : dict) (query : string) :
  truthy (payload raw) = false ->
  _format_query_result (VDict raw) query =
  Err (Exception [Lit "No query result in response"]).
Proof.
  intros H. unfold _format_query_result.
  rewrite format_payload by exact query. simpl res_bind. rewrite H. reflexivity.
Qed.

Lemma truthy_dict (p : dict) : truthy (VDict p) = true <-> p <> [].
Proof. destruct p; simpl; split; congruence. Qed.

Lemma format_truthy_dict (result : value) (query : string) (p data : dict) :
  get result "query_result" result = Ok (VDict p) ->
  p <> [] ->
  match lookup "data" p with Some x => x | None => VDict [] end = VDict data ->
  _format_query_result result query = Ok (normalized p query data).
Proof.
  intros Hget Hp Hdata. unfold _format_query_result.
  rewrite Hget. cbn [res_bind].
  apply truthy_dict in Hp. rewrite Hp. cbn [negb].
  rewrite !get_dict. cbn [res_bind]. rewrite !Hdata.
  rewrite !get_dict. cbn [res_bind]. unfold normalized.
  destruct (truthy (VStr query)); reflexivity.
Qed.

Lemma format_ok_inv (result : value) (query : string) (out : value) :
  _format_query_result result query = Ok out ->
  exists p data,
    get result "query_result" result = Ok (VDict p) /\ p <> [] /\
    match lookup "data" p with Some x => x | None => VDict [] end = VDict data /\
    out = normalized p query data.
Proof.
  unfold _format_query_result.
  destruct (get result "query_result" result) as [query_result|e] eqn:Hget;
    cbn [res_bind]; [|discriminate].
  destruct (truthy query_result) eqn:Ht; cbn [negb]; [|discriminate].
  destruct query_result as [| | | | | |p]; try (cbn; discriminate).
  rewrite !get_dict. cbn [res_bind].
  assert (exists q, (if truthy (VStr query) then Ok (VStr query)
                     else Ok match lookup "query" p with
                             | Some x => x
                             | None => VStr ""
                             end) = Ok q /\
                    q = if truthy (VStr query) then VStr query
                        else match lookup "query" p with
                             | Some x => x
                             | None => VStr ""
                             end) as (q & -> & Hq).
  { destruct (truthy (VStr query)); eauto. }
  cbn [res_bind].
  destruct (match lookup "data" p with Some x => x | None => VDict [] end)
    as [| | | | | |data] eqn:Hdata; try (cbn; discriminate).
  rewrite !get_dict. cbn [res_bind].
  intros H. exists p, data. repeat split; trivial.
  - now apply truthy_dict.
  - unfold normalized. rewrite <- Hq. congruence.
Qed.

Lemma format_truthy_err (result : value) (query : string) (query_result : value)
    (e : exn) :
  get result "query_result" result = Ok query_result ->
  truthy query_result = true ->
  _format_query_result result query = Err e ->
  e = AttributeError.
Proof.
  unfold _format_query_result. intros Hg Ht. rewrite Hg. cbn [res_bind].
  rewrite Ht. cbn [negb]. intros H.
  repeat match type of H with
         | res_bind ?m _ = Err _ =>
             let E := fresh "E" in
             destruct m eqn:E; cbn [res_bind] in H;
             [| injection H as <-;
                first [ eapply get_err_inv; eassumption
                      | destruct (truthy (VStr query));
                        [discriminate | eapply get_err_inv; eassumption] ] ]
         end.
  discriminate.
Qed.

Lemma format_err_inv (result : value) (query : string) (e : exn) :
  _format_query_result result query = Err e ->
  e = Exception [Lit "No query result in response"] \/ e = AttributeError.
Proof.
  intros H.
  destruct (get result "query_result" result) as [query_result|e'] eqn:Hget.
  - destruct (truthy query_result) eqn:Ht.
    + right. eapply format_truthy_err; eassumption.
    + left. unfold _format_query_result in H. rewrite Hget in H.
      cbn [res_bind] in H. rewrite Ht in H. cbn [negb] in H. congruence.
  - right. unfold _format_query_result in H. rewrite Hget in H.
    cbn [res_bind] in H. injection H as <-. eapply get_err_inv, Hget.
Qed.

Lemma protocol_not_attribute : ~ ProtocolError AttributeError.
Proof. inversion 1. Qed.

End Normalizer.

(** C1 (as stated, refuted).  The empty mapping is not normalized to a
    result with empty columns, empty rows and runtime 0: the call fails. *)
Lemma format_empty_mapping_raises :
  _format_query_result (VDict []) "SELECT 1" =
    Err (Exception [Lit "No query result in response"]) /\
  ~ (exists out,
        _format_query_result (VDict []) "SELECT 1" = Ok out /\
        data_field out "columns" = Some (VList []) /\
        data_field out "rows" = Some (VList []) /\
        field out "runtime" = Some (VInt 0)).
Proof.
  split; [reflexivity|]. intros (out & H & _). discriminate H.
Qed.

(** C1 (amended).  For a raw mapping that has none of the keys
    [query_result], [data] and [runtime], and any query text: the empty
    mapping makes the normalizer fail with "No query result in response";
    every non-empty one is normalized with an empty column list, an empty
    row list and runtime 0 in place of the missing fields. *)
Theorem format_substitutes_defaults (raw : dict) (query : string) :
  lookup "query_result" raw = None ->
  lookup "data" raw = None ->
  lookup "runtime" raw = None ->
  match raw with
  | [] =>
      exists e, _format_query_result (VDict raw) query = Err e /\ ProtocolError e
  | _ :: _ =>
      exists out,
        _format_query_result (VDict raw) query = Ok out /\
        data_field out "columns" = Some (VList []) /\
        data_field out "rows" = Some (VList []) /\
        field out "runtime" = Some (VInt 0)
  end.
Proof.
  intros Hq Hd Hr. destruct raw as [|kv raw'].
  - eexists. split; [reflexivity | constructor].
  - remember (kv :: raw') as raw eqn:Hraw.
    exists (normalized raw query []). split.
    + apply format_truthy_dict.
      * rewrite get_dict, Hq. reflexivity.
      * rewrite Hraw. discriminate.
      * now rewrite Hd.
    + unfold normalized, data_field, field. cbn. rewrite Hr. auto.
Qed.

Lemma format_substitutes_defaults_witness :
  (exists e, _format_query_result (VDict []) "SELECT 1" = Err e /\ ProtocolError e) /\
  (exists out,
      _format_query_result (VDict raw_id_only) "SELECT 1" = Ok out /\
      data_field out "columns" = Some (VList []) /\
      data_field out "rows" = Some (VList []) /\
      field out "runtime" = Some (VInt 0)).
Proof.
  split.
  - apply (format_substitutes_defaults [] "SELECT 1"); reflexivity.
  - apply (format_substitutes_defaults raw_id_only "SELECT 1"); reflexivity.
Defined.

(** C2 (as stated, refuted).  On a response whose nested result has
    [data: null] the normalizer neither returns a result nor fails with a
    protocol error: [None.get] raises [AttributeError]. *)
Lemma format_null_data_attribute_error :
  _format_query_result (VDict raw_null_data) "SELECT 1" = Err AttributeError /\
  (forall out, _format_query_result (VDict raw_null_data) "SELECT 1" <> Ok out) /\
  (forall e, _format_query_result (VDict raw_null_data) "SELECT 1" = Err e ->
             ~ ProtocolError e).
Proof.
  repeat split.
  - discriminate.
  - intros e H. injection H as <-. inversion 1.
Qed.

(** C2 (amended).  For every raw mapping and query text: the normalizer
    fails with the protocol error "No query result in response" exactly when
    the payload (the value under [query_result], else the mapping itself) is
    falsy; it returns a normalized result exactly when the payload is a
    non-empty mapping whose [data] is absent or a mapping; every other
    failure is an [AttributeError]. *)
Theorem format_fails_iff_payload_falsy (raw : dict) (query : string) :
  (truthy (payload raw) = false <->
   exists e, _format_query_result (VDict raw) query = Err e /\ ProtocolError e) /\
  ((exists p data,
       payload raw = VDict p /\ p <> [] /\
       match lookup "data" p with Some x => x | None => VDict [] end = VDict data) <->
   exists out, _format_query_result (VDict raw) query = Ok out) /\
  (forall e, _format_query_result (VDict raw) query = Err e ->
             ProtocolError e \/ e = AttributeError).
Proof.
  split; [split|split; [split|]].
  - intros H. eexists. split; [now apply format_falsy | constructor].
  - intros (e & He & Hp).
    destruct (truthy (payload raw)) eqn:Ht; [|reflexivity].
    apply (format_truthy_err _ _ _ _ (format_payload raw query) Ht) in He.
    subst e.
    now apply protocol_not_attribute in Hp.
  - intros (p & data & Hp & Hne & Hd). eexists.
    apply format_truthy_dict with (p := p) (data := data); trivial.
    rewrite format_payload by exact query. now rewrite Hp.
  - intros (out & H). apply format_ok_inv in H as (p & data & Hg & Hne & Hd & _).
    rewrite format_payload in Hg by exact query. injection Hg as Hg. eauto.
  - intros e H. apply format_err_inv in H as [->| ->]; [left; constructor | now right].
Qed.

(** C8.  Normalizing the output of a successful normalization, with the
    same query text, gives that output again. *)
Theorem format_idempotent (raw : value) (query : string) (out : value) :
  _format_query_result raw query = Ok out ->
  _format_query_result out query = Ok out.
Proof.
  intros H. apply format_ok_inv in H as (p & data & _ & _ & _ & ->).
  unfold normalized at 1.
  erewrite format_truthy_dict; [| reflexivity | discriminate | reflexivity].
  unfold normalized. cbn [lookup String.eqb Ascii.eqb Bool.eqb].
  destruct (truthy (VStr query)); reflexivity.
Qed.

Lemma format_idempotent_witness :
  exists out,
    _format_query_result (VDict raw_full) "" = Ok out /\
    _format_query_result out "" = Ok out.
Proof.
  eexists. split; [reflexivity|].
  apply (format_idempotent (VDict raw_full) ""). reflexivity.
Defined.

(* ================================================================== *)
(** ** The polling loop *)

Section Polling.

Variable server : nat -> response.
Variable self : RedashClient.t.
Variable job_id : value.

Local Abbreviation fetch := (status_fetch self job_id).
Local Abbreviation poll := (_poll_job_status server self).

Lemma job_status_inv (r : response) (job status : value) :
  job_status r = Some (job, status) ->
  exists status_data j,
    http_error (status_code r) = false /\
    body r = Some status_data /\
    getitem status_data "job" = Ok job /\
    job = VDict j /\
    lookup "status" j = Some status.
Proof.
  unfold job_status.
  destruct (http_error (status_code r)); [discriminate|].
  destruct (body r) as [status_data|]; [|discriminate].
  destruct (getitem status_data "job") as [job'|] eqn:Hjob; [|discriminate].
  destruct job' as [| | | | | |j]; try discriminate. cbn [getitem].
  destruct (lookup "status" j) as [s|] eqn:Hs; [|discriminate].
  intros H. injection H as <- <-. eauto 10.
Qed.

Lemma poll_tick (fuel : nat) (st : state) (job status : value) :
  job_status (server (calls st)) = Some (job, status) ->
  _poll_job_status server self (S fuel) job_id st =
  let st1 := {| calls := S (calls st); trace := trace st ++ [fetch] |} in
  if eq_int status QUERY_STATUS.COMPLETED then (Return job, st1)
  else if eq_int status QUERY_STATUS.FAILED then
    match get job "error" (VStr "Unknown error") with
    | Ok error => (Raise (Exception [Lit "Query execution failed: "; Str error]), st1)
    | Err e => (Raise e, st1)
    end
  else
    _poll_job_status server self fuel job_id
      {| calls := S (calls st); trace := trace st ++ [fetch; Sleep POLL_INTERVAL] |}.
Proof.
  intros H. apply job_status_inv in H as (sd & j & Hc & Hb & Hj & -> & Hs).
  cbn [_poll_job_status]. unfold bind at 1. unfold requests_get, requests.
  unfold bind at 1. unfold raise_for_status. rewrite Hc. cbn [lift ret].
  unfold bind at 1. unfold json_of. rewrite Hb. cbn [lift ret].
  unfold bind at 1. rewrite Hj. cbn [lift ret].
  unfold bind at 1. cbn [getitem]. rewrite Hs. cbn [lift ret].
  cbv zeta. fold (status_fetch self job_id).
  destruct (eq_int status QUERY_STATUS.COMPLETED); [reflexivity|].
  destruct (eq_int status QUERY_STATUS.FAILED).
  - unfold bind. cbn [lift ret get raise]. reflexivity.
  - unfold bind at 1. unfold time_sleep. cbn [calls trace].
    rewrite <- app_assoc. reflexivity.
Qed.

Lemma pending_inv (r : response) :
  pending r = true ->
  exists job status,
    job_status r = Some (job, status) /\
    eq_int status QUERY_STATUS.COMPLETED = false /\
    eq_int status QUERY_STATUS.FAILED = false.
Proof.
  unfold pending, terminal, completed, failed.
  destruct (job_status r) as [[job status]|]; [|discriminate].
  destruct (eq_int status QUERY_STATUS.COMPLETED) eqn:Hc; cbn; [discriminate|].
  destruct (eq_int status QUERY_STATUS.FAILED) eqn:Hf; cbn; [discriminate|].
  intros _. exists job, status. repeat split; assumption.
Qed.

Lemma poll_pending (fuel : nat) (st : state) :
  pending (server (calls st)) = true ->
  poll (S fuel) job_id st =
  poll fuel job_id
    {| calls := S (calls st); trace := trace st ++ [fetch; Sleep POLL_INTERVAL] |}.
Proof.
  intros H. apply pending_inv in H as (job & status & Hj & Hc & Hf).
  rewrite (poll_tick _ _ _ _ Hj). cbv zeta. now rewrite Hc, Hf.
Qed.

(** [n] pending answers cost [n] iterations, [n] fetches and [n] sleeps. *)
Lemma poll_pending_prefix (n fuel : nat) (st : state) :
  (forall k, (k < n)%nat -> pending (server (calls st + k)) = true) ->
  poll (n + fuel) job_id st =
  poll fuel job_id
    {| calls := calls st + n; trace := trace st ++ ticks fetch n |}.
Proof.
  revert st. induction n as [|n IH]; intros st H.
  - cbn [ticks Nat.add]. rewrite Nat.add_0_r, app_nil_r. now destruct st.
  - cbn [Nat.add]. rewrite poll_pending.
    2:{ specialize (H O). rewrite Nat.add_0_r in H. apply H. lia. }
    rewrite IH.
    + cbn [calls trace ticks]. rewrite <- app_assoc.
      f_equal. f_equal. lia.
    + intros k Hk. cbn [calls].
      replace (S (calls st) + k)%nat with (calls st + S k)%nat by lia.
      apply H. lia.
Qed.

Lemma sleeps_ticks (n : nat) (evs : list event) :
  sleeps (ticks fetch n ++ evs) = (n + sleeps evs)%nat.
Proof.
  unfold sleeps. induction n as [|n IH]; [reflexivity|].
  cbn [ticks app filter is_sleep status_fetch List.length]. now rewrite IH.
Qed.

End Polling.

(** C3.  When the first [n] status answers are pending and the next one is
    a job status, the loop (given more than [n] iterations) leaves at that
    answer: with the job object if its status equals completed (3), with
    "Query execution failed: " followed by the job's [error], or by
    "Unknown error" when the job has none, if it equals failed (4).  It has
    then fetched [n + 1] times and slept [n] times: not at all when the
    first answer is terminal. *)
Theorem poll_exits_on_first_terminal (server : nat -> response)
    (self : RedashClient.t) (job_id : value) (st : state) (n fuel : nat)
    (job : dict) (status : value) :
  (forall k, (k < n)%nat -> pending (server (calls st + k)%nat) = true) ->
  job_status (server (calls st + n)%nat) = Some (VDict job, status) ->
  (n < fuel)%nat ->
  let events := (ticks (status_fetch self job_id) n ++ [status_fetch self job_id])%list in
  let st' := {| calls := S (calls st + n); trace := trace st ++ events |} in
  let error :=
    match lookup "error" job with Some x => x | None => VStr "Unknown error" end in
  sleeps events = n /\
  (eq_int status QUERY_STATUS.COMPLETED = true ->
   _poll_job_status server self fuel job_id st = (Return (VDict job), st')) /\
  (eq_int status QUERY_STATUS.COMPLETED = false ->
   eq_int status QUERY_STATUS.FAILED = true ->
   _poll_job_status server self fuel job_id st =
     (Raise (Exception [Lit "Query execution failed: "; Str error]), st') /\
   QueryExecutionError (Exception [Lit "Query execution failed: "; Str error])).
Proof.
  intros Hpending Hjob Hfuel events st' error.
  replace fuel with (n + S (fuel - S n))%nat by lia.
  rewrite (poll_pending_prefix server self job_id n _ st Hpending).
  erewrite poll_tick by (cbn [calls]; exact Hjob). cbv zeta. cbn [calls trace].
  rewrite <- app_assoc. fold events. fold st'.
  split; [|split].
  - unfold events. rewrite sleeps_ticks. cbn. lia.
  - now intros ->.
  - intros -> ->. cbn [get]. split; [reflexivity | constructor].
Qed.

Lemma poll_exits_on_first_terminal_witness :
  (_poll_job_status (server_completes_after 2) client0 3 (VStr "abc") st0 =
     (Return (VDict [("status", VInt 3); ("query_result_id", VInt 99)]),
      {| calls := 3;
         trace := ticks (status_fetch client0 (VStr "abc")) 2 ++
                  [status_fetch client0 (VStr "abc")] |})) /\
  (_poll_job_status server_failed client0 1 (VStr "abc") st0 =
     (Raise (Exception [Lit "Query execution failed: "; Str (VStr "Unknown error")]),
      {| calls := 1; trace := [status_fetch client0 (VStr "abc")] |})).
Proof.
  split.
  - apply (poll_exits_on_first_terminal (server_completes_after 2) client0
             (VStr "abc") st0 2 3 [("status", VInt 3); ("query_result_id", VInt 99)]
             (VInt 3)).
    + intros [|[|k]] Hk; [reflexivity | reflexivity | lia].
    + reflexivity.
    + lia.
    + reflexivity.
  - apply (poll_exits_on_first_terminal server_failed client0
             (VStr "abc") st0 0 1 [("status", VInt 4)] (VInt 4)).
    + intros k Hk. lia.
    + reflexivity.
    + lia.
    + reflexivity.
    + reflexivity.
Defined.

Section PollingTermination.

Variable server : nat -> response.
Variable self : RedashClient.t.
Variable job_id : value.

Local Abbreviation fetch := (status_fetch self job_id).
Local Abbreviation poll := (_poll_job_status server self).

Lemma pending_or_terminal (k : nat) :
  job_status (server k) <> None ->
  pending (server k) = negb (terminal (server k)).
Proof.
  unfold pending. destruct (job_status (server k)); congruence.
Qed.

Lemma poll_terminal (fuel : nat) (st : state) :
  job_status (server (calls st)) <> None ->
  terminal (server (calls st)) = true ->
  fst (poll (S fuel) job_id st) <> Running.
Proof.
  intros Hjs. unfold terminal, completed, failed.
  destruct (job_status (server (calls st))) as [[job status]|] eqn:Hj; [|congruence].
  rewrite (poll_tick _ _ _ _ _ _ _ Hj). cbv zeta.
  destruct (eq_int status QUERY_STATUS.COMPLETED); [discriminate|].
  destruct (eq_int status QUERY_STATUS.FAILED); [|discriminate].
  intros _. destruct (get job "error" (VStr "Unknown error")); discriminate.
Qed.

Lemma poll_leaves_terminal (fuel : nat) (st : state) :
  (forall k, (calls st <= k)%nat -> job_status (server k) <> None) ->
  fst (poll fuel job_id st) <> Running ->
  exists k, (calls st <= k)%nat /\ terminal (server k) = true.
Proof.
  revert st. induction fuel as [|fuel IH]; intros st Hjs H.
  - now contradiction H.
  - destruct (terminal (server (calls st))) eqn:Ht.
    + exists (calls st). split; [lia | assumption].
    + rewrite poll_pending in H.
      2:{ rewrite pending_or_terminal, Ht; [reflexivity | apply Hjs; lia]. }
      apply IH in H as (k & Hk & Hterm).
      * exists k. cbn [calls] in Hk. split; [lia | assumption].
      * intros k Hk. cbn [calls] in Hk. apply Hjs. lia.
Qed.

Lemma poll_reaches_terminal (d : nat) (st : state) :
  (forall k, (calls st <= k)%nat -> job_status (server k) <> None) ->
  terminal (server (calls st + d)) = true ->
  exists fuel, fst (poll fuel job_id st) <> Running.
Proof.
  revert st. induction d as [|d IH]; intros st Hjs Ht.
  - exists 1%nat. rewrite Nat.add_0_r in Ht.
    apply poll_terminal; [apply Hjs; lia | assumption].
  - destruct (terminal (server (calls st))) eqn:Ht0.
    + exists 1%nat. apply poll_terminal; [apply Hjs; lia | assumption].
    + destruct (IH {| calls := S (calls st);
                      trace := trace st ++ [fetch; Sleep POLL_INTERVAL] |})
        as (fuel & Hfuel).
      * intros k Hk. cbn [calls] in Hk. apply Hjs. lia.
      * cbn [calls]. now replace (S (calls st) + d)%nat with (calls st + S d)%nat by lia.
      * exists (S fuel). rewrite poll_pending; [assumption|].
        rewrite pending_or_terminal, Ht0; [reflexivity | apply Hjs; lia].
Qed.

End PollingTermination.

(** C4.  On a service whose every answer is a job status, the polling loop
    leaves (for some number of iterations) exactly when some answer is
    terminal.  As long as the first [n] answers are not terminal it is
    still running after [n] iterations, having fetched [n] times and slept
    [POLL_INTERVAL] = 1 after every fetch; so there is no bound on the
    number of attempts, and if no answer is ever terminal it never
    leaves. *)
Theorem poll_terminates_iff_terminal (server : nat -> response)
    (self : RedashClient.t) (job_id : value) (st : state) :
  (forall k, (calls st <= k)%nat -> job_status (server k) <> None) ->
  ((exists fuel, fst (_poll_job_status server self fuel job_id st) <> Running) <->
   (exists k, (calls st <= k)%nat /\ terminal (server k) = true)) /\
  (forall n,
      (forall k, (k < n)%nat -> terminal (server (calls st + k)%nat) = false) ->
      _poll_job_status server self n job_id st =
        (Running,
         {| calls := calls st + n;
            trace := trace st ++ ticks (status_fetch self job_id) n |})) /\
  ((forall k, (calls st <= k)%nat -> terminal (server k) = false) ->
   forall fuel, fst (_poll_job_status server self fuel job_id st) = Running) /\
  POLL_INTERVAL = 1.
Proof.
  intros Hjs.
  assert (Hprefix : forall n,
             (forall k, (k < n)%nat -> terminal (server (calls st + k)%nat) = false) ->
             _poll_job_status server self n job_id st =
               (Running,
                {| calls := calls st + n;
                   trace := trace st ++ ticks (status_fetch self job_id) n |})).
  { intros n Hn. replace n with (n + 0)%nat at 1 by lia.
    rewrite poll_pending_prefix; [reflexivity|].
    intros k Hk. rewrite pending_or_terminal, Hn; [reflexivity | lia | apply Hjs; lia]. }
  split; [split|split; [|split]].
  - intros (fuel & H). eapply poll_leaves_terminal; eassumption.
  - intros (k & Hk & Ht).
    apply (poll_reaches_terminal server self job_id (k - calls st) st Hjs).
    now replace (calls st + (k - calls st))%nat with k by lia.
  - exact Hprefix.
  - intros Hnever fuel. rewrite Hprefix; [reflexivity|].
    intros k _. apply Hnever. lia.
  - reflexivity.
Qed.

Lemma poll_terminates_iff_terminal_witness :
  ((exists fuel,
       fst (_poll_job_status (server_completes_after 2) client0 fuel (VStr "abc") st0)
       <> Running) <->
   (exists k, (calls st0 <= k)%nat /\ terminal (server_completes_after 2 k) = true)) /\
  _poll_job_status (server_completes_after 2) client0 2 (VStr "abc") st0 =
    (Running,
     {| calls := 2; trace := ticks (status_fetch client0 (VStr "abc")) 2 |}).
Proof.
  assert (H : forall k, (calls st0 <= k)%nat ->
                        job_status (server_completes_after 2 k) <> None).
  { intros k _. unfold server_completes_after.
    destruct (k <? 2)%nat; discriminate. }
  destruct (poll_terminates_iff_terminal (server_completes_after 2) client0
              (VStr "abc") st0 H) as (Hiff & Hrun & _).
  split; [exact Hiff|].
  apply (Hrun 2%nat). intros [|[|k]] Hk; [reflexivity | reflexivity | lia].
Defined.

(* ================================================================== *)
(** ** Runs of the client *)

Section Runs.

Variable server : nat -> response.

(** One checked exchange: request, [raise_for_status], [json()]. *)
Lemma run_exchange {A} (r : request) (k : value -> M exn A) (st : state)
    (code : Z) (v : value) :
  server (calls st) = {| status_code := code; body := Some v |} ->
  http_error code = false ->
  bind (requests server r)
       (fun response =>
          bind (lift (raise_for_status response))
               (fun _ => bind (lift (json_of response)) k)) st =
  k v {| calls := S (calls st); trace := trace st ++ [Http r] |}.
Proof.
  intros Hs Hc. unfold bind at 1. unfold requests. rewrite Hs.
  unfold bind at 1. unfold raise_for_status. cbn [status_code]. rewrite Hc.
  cbn [lift ret]. unfold bind at 1. reflexivity.
Qed.

Lemma run_lift {A B} (r : res A) (a : A) (k : A -> M exn B) (st : state) :
  r = Ok a -> bind (lift r) k st = k a st.
Proof. intros ->. reflexivity. Qed.

(** *** [guarded] is kept by every construct the client uses *)

Lemma guarded_ret {A} (a : A) : guarded server (ret a).
Proof.
  intros st. cbn. repeat split; [lia | exists []; now rewrite app_nil_r | lia].
Qed.

Lemma guarded_raise {A} (e : exn) : guarded server (@raise exn A e).
Proof.
  intros st. cbn. repeat split; [lia | exists []; now rewrite app_nil_r | lia].
Qed.

Lemma guarded_lift {A} (r : res A) : guarded server (lift r).
Proof. destruct r; [apply guarded_ret | apply guarded_raise]. Qed.

Lemma guarded_running {A} : guarded server (fun st => (@Running exn A, st)).
Proof.
  intros st. cbn. repeat split; [lia | exists []; now rewrite app_nil_r | lia].
Qed.

Lemma guarded_sleep (seconds : Z) : guarded server (time_sleep seconds).
Proof.
  intros st. cbn. repeat split; [lia | eauto | lia].
Qed.

Lemma guarded_bind {A B} (m : M exn A) (k : A -> M exn B) :
  guarded server m -> (forall a, guarded server (k a)) -> guarded server (bind m k).
Proof.
  intros Hm Hk st. specialize (Hm st). unfold bind.
  destruct (m st) as [[a|e|] st1]; cbn [fst snd] in *;
    destruct Hm as (Hle & (evs & Hevs) & Herr).
  2,3: (split; [assumption|]; split; [eauto|]; intros k0 Hk0 Hbad;
        destruct (Herr k0 Hk0 Hbad) as (code & Hcode);
        first [discriminate | injection Hcode as ->; eauto]).
  destruct (Hk a st1) as (Hle' & (evs' & Hevs') & Herr').
  split; [lia|]. split.
  - exists (evs ++ evs')%list. now rewrite Hevs', Hevs, app_assoc.
  - intros k0 Hk0 Hbad. destruct (Nat.lt_ge_cases k0 (calls st1)) as [Hlt|Hge].
    + destruct (Herr k0) as (code & Hcode); [lia | assumption | discriminate].
    + apply (Herr' k0); [lia | assumption].
Qed.

Lemma guarded_exchange {A} (r : request) (k : response -> M exn A) :
  (forall response, guarded server (k response)) ->
  guarded server
    (bind (requests server r)
          (fun response => bind (lift (raise_for_status response))
                                (fun _ => k response))).
Proof.
  intros Hk st.
  set (st1 := {| calls := S (calls st); trace := trace st ++ [Http r] |}).
  assert (Hrun :
            bind (requests server r)
                 (fun response => bind (lift (raise_for_status response))
                                       (fun _ => k response)) st =
            if http_error (status_code (server (calls st)))
            then (Raise (HTTPError (status_code (server (calls st)))), st1)
            else k (server (calls st)) st1).
  { unfold bind, requests, raise_for_status.
    destruct (http_error (status_code (server (calls st)))); reflexivity. }
  rewrite Hrun. clear Hrun.
  destruct (http_error (status_code (server (calls st)))) eqn:Hc.
  - subst st1. cbn [fst snd calls trace]. split; [lia|]. split; [eauto|].
    intros k0 Hk0 _. eauto.
  - destruct (Hk (server (calls st)) st1) as (Hle & (evs & Hevs) & Herr).
    subst st1. cbn [calls trace] in *. split; [lia|]. split.
    + exists (Http r :: evs). rewrite Hevs, <- app_assoc. reflexivity.
    + intros k0 Hk0 Hbad. destruct (Nat.eq_dec k0 (calls st)) as [->|Hne].
      * congruence.
      * apply (Herr k0); [lia | assumption].
Qed.

End Runs.

Ltac guarded_step :=
  repeat first
    [ apply guarded_exchange; intros
    | apply guarded_lift
    | apply guarded_ret
    | apply guarded_raise
    | apply guarded_sleep
    | apply guarded_running
    | assumption
    | match goal with
      | |- guarded _ (if ?b then _ else _) => destruct b
      | |- guarded _ (bind _ _) => apply guarded_bind; [|intros]
      end ].

Section GuardedClient.

Variable md5_hexdigest : string -> string.
Variable server : nat -> response.
Variable self : RedashClient.t.

Lemma guarded_poll (fuel : nat) (job_id : value) :
  guarded server (_poll_job_status server self fuel job_id).
Proof.
  induction fuel as [|fuel IH]; cbn [_poll_job_status]; [apply guarded_running|].
  unfold requests_get. guarded_step.
Qed.

Lemma guarded_wait_and_fetch (fuel : nat) (job_id : value) (query : string) :
  guarded server (wait_and_fetch server self fuel job_id query).
Proof.
  unfold wait_and_fetch, requests_get.
  apply guarded_bind; [apply guarded_poll | intros]. guarded_step.
Qed.

Lemma guarded_execute_query (fuel : nat) (query : string) (ds : option Z) :
  guarded server (execute_query md5_hexdigest server self fuel query ds).
Proof.
  unfold execute_query, requests_post. cbv zeta.
  guarded_step. apply guarded_wait_and_fetch.
Qed.

Lemma guarded_execute_predefined_query (fuel : nat) (query_id : Z)
    (parameters : option dict) :
  guarded server (execute_predefined_query server self fuel query_id parameters).
Proof.
  unfold execute_predefined_query, requests_post. cbv zeta.
  guarded_step. apply guarded_wait_and_fetch.
Qed.

End GuardedClient.

(* ================================================================== *)
(** ** [execute_query] and [execute_predefined_query] *)

(** C5.  When the creation of the query succeeds and the trigger answers at
    once with [{query_result: {id: 42, data: {columns: [], rows: [[1]]}}}],
    [execute_query "SELECT 1"] returns the normalized result with id 42 and
    rows [[1]], whatever the fuel; the run consists of the two POSTs only:
    no status fetch, no sleep. *)
Theorem execute_query_immediate (md5_hexdigest : string -> string)
    (server : nat -> response) (self : RedashClient.t) (fuel : nat) (st : state)
    (code1 code2 : Z) (answer1 query_id : value) :
  server (calls st) = {| status_code := code1; body := Some answer1 |} ->
  http_error code1 = false ->
  getitem answer1 "id" = Ok query_id ->
  server (S (calls st)) = {| status_code := code2; body := Some immediate_answer |} ->
  http_error code2 = false ->
  let events :=
    [create_post md5_hexdigest self "SELECT 1" (RedashClient.data_source_id self);
     trigger_post self query_id None] in
  let out :=
    VDict [("query_result",
            VDict [("id", VInt 42);
                   ("query", VStr "SELECT 1");
                   ("data", VDict [("columns", VList []);
                                   ("rows", VList [VList [VInt 1]])]);
                   ("data_source_id", VNone);
                   ("runtime", VInt 0);
                   ("retrieved_at", VNone)])] in
  execute_query md5_hexdigest server self fuel "SELECT 1" None st =
    (Return out, {| calls := S (S (calls st)); trace := trace st ++ events |}) /\
  field out "id" = Some (VInt 42) /\
  data_field out "rows" = Some (VList [VList [VInt 1]]) /\
  existsb is_get events = false /\
  sleeps events = 0%nat.
Proof.
  intros H1 Hc1 Hid H2 Hc2 events out.
  split; [|repeat split].
  unfold execute_query, requests_post. cbv zeta.
  rewrite (run_exchange server _ _ st code1 answer1 H1 Hc1).
  rewrite (run_lift _ _ _ _ Hid).
  erewrite run_exchange; [| cbn [calls]; exact H2 | exact Hc2].
  cbn [calls trace]. rewrite <- app_assoc. reflexivity.
Qed.

Lemma execute_query_immediate_witness :
  exists out st',
    execute_query digest0 server_immediate client0 0 "SELECT 1" None st0 =
      (Return out, st') /\
    field out "id" = Some (VInt 42) /\
    data_field out "rows" = Some (VList [VList [VInt 1]]) /\
    existsb is_get (trace st') = false /\
    sleeps (trace st') = 0%nat.
Proof.
  destruct (execute_query_immediate digest0 server_immediate client0 0 st0
              200 200 (VDict [("id", VInt 17)]) (VInt 17))
    as (Hrun & Hid & Hrows & Hget & Hsleep); try reflexivity.
  do 2 eexists. split; [exact Hrun|]. repeat split.
Defined.

(** C6 (as stated, refuted).  A parameters mapping that is present but
    empty is not passed on: the payload of the trigger is [{}], not
    [{parameters: {}}]. *)
Lemma predefined_empty_parameters_omitted :
  execute_predefined_query server_empty_answer client0 0 7 (Some []) st0 =
    (Raise (Exception [Lit "Invalid response format: "; Str (VDict [])]),
     {| calls := 1; trace := [trigger_post client0 (VInt 7) (Some (VDict []))] |}) /\
  VDict [] <> VDict [("parameters", VDict [])].
Proof.
  split; [reflexivity | discriminate].
Qed.

Section Predefined.

Variable server : nat -> response.
Variable self : RedashClient.t.

(** The first exchange of a run, by the status of its answer. *)
Lemma run_exchange_status {A} (r : request) (k : response -> M exn A) (st : state) :
  bind (requests server r)
       (fun response => bind (lift (raise_for_status response))
                             (fun _ => k response)) st =
  let st1 := {| calls := S (calls st); trace := trace st ++ [Http r] |} in
  if http_error (status_code (server (calls st)))
  then (Raise (HTTPError (status_code (server (calls st)))), st1)
  else k (server (calls st)) st1.
Proof.
  unfold bind, requests, raise_for_status.
  destruct (http_error (status_code (server (calls st)))); reflexivity.
Qed.

Lemma predefined_first_event (fuel : nat) (query_id : Z) (parameters : option dict)
    (st : state) :
  exists rest,
    trace (snd (execute_predefined_query server self fuel query_id parameters st)) =
    trace st ++
      trigger_post self (VInt query_id)
        (Some match parameters with
              | Some (kv :: p) => VDict [("parameters", VDict (kv :: p))]
              | _ => VDict []
              end) :: rest.
Proof.
  unfold execute_predefined_query, requests_post. cbv zeta.
  rewrite run_exchange_status. cbv zeta.
  assert (Hpayload :
            match parameters with
            | Some p =>
                if truthy (VDict p) then VDict [("parameters", VDict p)] else VDict []
            | None => VDict []
            end =
            match parameters with
            | Some (kv :: p) => VDict [("parameters", VDict (kv :: p))]
            | _ => VDict []
            end) by now destruct parameters as [[|]|].
  rewrite Hpayload. fold (trigger_post self (VInt query_id)).
  match goal with
  | |- context [Http ?r] => set (ev := Http r)
  end.
  destruct (http_error (status_code (server (calls st)))).
  - exists []. reflexivity.
  - match goal with
    | |- context [snd (?m ?s)] =>
        assert (Hg : guarded server m);
        [| destruct (Hg s) as (_ & (evs & Hevs) & _);
           exists evs; rewrite Hevs; cbn [trace];
           now rewrite <- app_assoc ]
    end.
    guarded_step. apply guarded_wait_and_fetch.
Qed.

End Predefined.

(** C6 (amended).  The trigger of a predefined query carries
    [{parameters: p}] when a non-empty parameters mapping [p] is given and
    the empty mapping when the parameters are absent or empty.  When the
    trigger is answered, with a status that is not an error status, by a
    mapping without a [job] key, the call fails with the protocol error
    "Invalid response format: ..." after that single request. *)
Theorem predefined_requires_job_handle (server : nat -> response)
    (self : RedashClient.t) (fuel : nat) (query_id : Z) (parameters : option dict)
    (st : state) :
  let job_payload :=
    match parameters with
    | Some (kv :: p) => VDict [("parameters", VDict (kv :: p))]
    | _ => VDict []
    end in
  let trigger := trigger_post self (VInt query_id) (Some job_payload) in
  (exists rest,
      trace (snd (execute_predefined_query server self fuel query_id parameters st)) =
      trace st ++ trigger :: rest) /\
  (forall (code : Z) (answer : dict),
      server (calls st) = {| status_code := code; body := Some (VDict answer) |} ->
      http_error code = false ->
      lookup "job" answer = None ->
      execute_predefined_query server self fuel query_id parameters st =
        (Raise (Exception [Lit "Invalid response format: "; Str (VDict answer)]),
         {| calls := S (calls st); trace := trace st ++ [trigger] |}) /\
      ProtocolError (Exception [Lit "Invalid response format: "; Str (VDict answer)])).
Proof.
  intros job_payload trigger. split.
  - apply predefined_first_event.
  - intros code answer Hs Hc Hjob. split; [|constructor].
    unfold execute_predefined_query, requests_post. cbv zeta.
    erewrite run_exchange; [| exact Hs | exact Hc].
    unfold bind at 1. cbn [lift contains ret]. rewrite Hjob. cbn [negb raise].
    unfold trigger, job_payload, trigger_post.
    now destruct parameters as [[|kv p]|].
Qed.

Lemma predefined_requires_job_handle_witness :
  execute_predefined_query server_empty_answer client0 0 7
    (Some [("start_date", VStr "2024-01-01")]) st0 =
    (Raise (Exception [Lit "Invalid response format: "; Str (VDict [])]),
     {| calls := 1;
        trace := [trigger_post client0 (VInt 7)
                    (Some (VDict [("parameters",
                                   VDict [("start_date", VStr "2024-01-01")])]))] |}) /\
  execute_predefined_query server_empty_answer client0 0 7 None st0 =
    (Raise (Exception [Lit "Invalid response format: "; Str (VDict [])]),
     {| calls := 1; trace := [trigger_post client0 (VInt 7) (Some (VDict []))] |}).
Proof.
  split.
  - apply (proj2 (predefined_requires_job_handle server_empty_answer client0 0 7
                    (Some [("start_date", VStr "2024-01-01")]) st0) 200 []);
      reflexivity.
  - apply (proj2 (predefined_requires_job_handle server_empty_answer client0 0 7
                    None st0) 200 []);
      reflexivity.
Defined.

(** C7.  Whatever the service does: an exchange of a run of
    [execute_query] (creation, trigger, status fetch or result fetch) that
    is answered with an error status ends the run with [HTTPError], the
    upstream error; and when creation and trigger succeed and the trigger's
    answer is a mapping with neither [query_result] nor [job], the run ends
    with the protocol error "Invalid response format. Keys: ...", which is
    not an upstream error. *)
Theorem execute_query_failures (md5_hexdigest : string -> string)
    (server : nat -> response) (self : RedashClient.t) (fuel : nat)
    (query : string) (data_source_id : option Z) (st : state) :
  let run := execute_query md5_hexdigest server self fuel query data_source_id st in
  (forall k,
      (calls st <= k < calls (snd run))%nat ->
      http_error (status_code (server k)) = true ->
      exists e, fst run = Raise e /\ UpstreamError e) /\
  (forall (code1 code2 : Z) (answer1 query_id : value) (answer2 : dict),
      server (calls st) = {| status_code := code1; body := Some answer1 |} ->
      http_error code1 = false ->
      getitem answer1 "id" = Ok query_id ->
      server (S (calls st)) = {| status_code := code2; body := Some (VDict answer2) |} ->
      http_error code2 = false ->
      lookup "query_result" answer2 = None ->
      lookup "job" answer2 = None ->
      exists e, fst run = Raise e /\ ProtocolError e /\ ~ UpstreamError e).
Proof.
  intros run. split.
  - intros k Hk Hbad.
    destruct (guarded_execute_query md5_hexdigest server self fuel query
                data_source_id st) as (_ & _ & Herr).
    destruct (Herr k Hk Hbad) as (code & Hcode).
    eexists. split; [exact Hcode | constructor].
  - intros code1 code2 answer1 query_id answer2 H1 Hc1 Hid H2 Hc2 Hq Hj.
    exists (Exception [Lit "Invalid response format. Keys: ";
                       Str (VList (map (fun kv => VStr (fst kv)) answer2))]).
    split; [|split; [constructor | inversion 1]].
    unfold run, execute_query, requests_post. cbv zeta.
    rewrite (run_exchange server _ _ st code1 answer1 H1 Hc1).
    rewrite (run_lift _ _ _ _ Hid).
    erewrite run_exchange; [| cbn [calls]; exact H2 | exact Hc2].
    unfold bind at 1. cbn [lift contains ret]. rewrite Hq.
    unfold bind at 1. cbn [lift contains ret]. rewrite Hj.
    reflexivity.
Qed.

Lemma execute_query_failures_witness :
  (exists e, fst (execute_query digest0 server_create_fails client0 5 "SELECT 1" None st0)
             = Raise e /\ UpstreamError e) /\
  (exists e, fst (execute_query digest0 server_trigger_fails client0 5 "SELECT 1" None st0)
             = Raise e /\ UpstreamError e) /\
  (exists e, fst (execute_query digest0 server_poll_fails client0 5 "SELECT 1" None st0)
             = Raise e /\ UpstreamError e) /\
  (exists e, fst (execute_query digest0 server_fetch_fails client0 5 "SELECT 1" None st0)
             = Raise e /\ UpstreamError e) /\
  (exists e, fst (execute_query digest0 server_no_handle client0 5 "SELECT 1" None st0)
             = Raise e /\ ProtocolError e /\ ~ UpstreamError e).
Proof.
  repeat split.
  - apply (proj1 (execute_query_failures digest0 server_create_fails client0 5
                    "SELECT 1" None st0) 0%nat); [vm_compute; lia | reflexivity].
  - apply (proj1 (execute_query_failures digest0 server_trigger_fails client0 5
                    "SELECT 1" None st0) 1%nat); [vm_compute; lia | reflexivity].
  - apply (proj1 (execute_query_failures digest0 server_poll_fails client0 5
                    "SELECT 1" None st0) 3%nat); [vm_compute; lia | reflexivity].
  - apply (proj1 (execute_query_failures digest0 server_fetch_fails client0 5
                    "SELECT 1" None st0) 3%nat); [vm_compute; lia | reflexivity].
  - apply (proj2 (execute_query_failures digest0 server_no_handle client0 5
                    "SELECT 1" None st0) 200 200 (VDict [("id", VInt 17)]) (VInt 17)
                 [("message", VStr "queued")]); reflexivity.
Defined.

(* ================================================================== *)
(** ** The gateway *)

Section Returns.

Lemma returns_bind {E A B} (P : B -> Prop) (m : M E A) (k : A -> M E B) :
  (forall a, returns P (k a)) -> returns P (bind m k).
Proof.
  intros Hk st b st' H. unfold bind in H.
  destruct (m st) as [[a|e|] st1]; try discriminate.
  eapply Hk, H.
Qed.

Lemma returns_raise {E A} (P : A -> Prop) (e : E) : returns P (@raise E A e).
Proof. intros st a st' H. discriminate. Qed.

Lemma returns_lift {A} (P : A -> Prop) (r : res A) :
  (forall a, r = Ok a -> P a) -> returns P (lift r).
Proof.
  intros Hr st a st' H. destruct r as [a'|e]; cbn in H; [|discriminate].
  injection H as <- _. now apply Hr.
Qed.

Lemma format_wrapped (result : value) (query : string) (out : value) :
  _format_query_result result query = Ok out -> wrapped out.
Proof.
  intros H. apply format_ok_inv in H as (p & data & _ & _ & _ & ->).
  unfold normalized. eexists. reflexivity.
Qed.

End Returns.

Ltac returns_step :=
  repeat first
    [ apply returns_raise
    | apply returns_lift; intros; eapply format_wrapped; eassumption
    | match goal with
      | |- returns _ (if ?b then _ else _) => destruct b
      | |- returns _ (bind _ _) => apply returns_bind; intros
      end ].

Section GatewayRuns.

Variable md5_hexdigest : string -> string.
Variable server : nat -> response.
Variable redash_client : RedashClient.t.

Lemma returns_wait_and_fetch (fuel : nat) (job_id : value) (query : string) :
  returns wrapped (wait_and_fetch server redash_client fuel job_id query).
Proof. unfold wait_and_fetch. returns_step. Qed.

Lemma returns_execute_query (fuel : nat) (query : string) (ds : option Z) :
  returns wrapped (execute_query md5_hexdigest server redash_client fuel query ds).
Proof.
  unfold execute_query. cbv zeta. returns_step. apply returns_wait_and_fetch.
Qed.

(** A failure of the client inside [try] reaches the handler. *)
Lemma try_except_raise {E A B} (m : M exn A) (k : A -> M exn B)
    (h : exn -> M E B) (st st' : state) (e : exn) :
  m st = (Raise e, st') ->
  try_except (bind m k) h st = h e st'.
Proof. intros H. unfold try_except, bind. now rewrite H. Qed.

End GatewayRuns.

(** C9.  Whatever exception the query client raises, each of the three
    endpoints answers with an [HTTPException] of status 500 whose detail is
    the text of that exception, after the endpoint's own prefix
    ("Failed to fetch data sources: ", "Query execution failed: ", none for
    predefined queries): the status does not depend on the kind of
    failure. *)
Theorem gateway_maps_failures_to_500 (md5_hexdigest : string -> string)
    (server : nat -> response) (redash_client : RedashClient.t) (fuel : nat)
    (st st' : state) (e : exn) :
  (list_data_sources server redash_client st = (Raise e, st') ->
   get_data_sources server redash_client st =
     (Raise {| http_status := 500;
               detail := [Text "Failed to fetch data sources: "; StrExn e] |}, st')) /\
  (forall request,
      execute_query md5_hexdigest server redash_client fuel
        match QueryRequest.sql_query request with
        | Some s => if truthy (VStr s) then s else QueryRequest.question request
        | None => QueryRequest.question request
        end None st = (Raise e, st') ->
      ask_question md5_hexdigest server redash_client fuel request st =
        (Raise {| http_status := 500;
                  detail := [Text "Query execution failed: "; StrExn e] |}, st')) /\
  (forall query_id request,
      execute_predefined_query server redash_client fuel query_id
        (PredefinedQueryRequest.parameters request) st = (Raise e, st') ->
      ask_predefined_question server redash_client fuel query_id request st =
        (Raise {| http_status := 500; detail := [StrExn e] |}, st')).
Proof.
  split; [|split].
  - intros H. unfold get_data_sources. now rewrite (try_except_raise _ _ _ _ _ _ H).
  - intros request H. unfold ask_question. cbv zeta.
    now rewrite (try_except_raise _ _ _ _ _ _ H).
  - intros query_id request H. unfold ask_predefined_question.
    now rewrite (try_except_raise _ _ _ _ _ _ H).
Qed.

Lemma gateway_maps_failures_to_500_witness :
  (* an upstream error, on each endpoint *)
  http_status_of (fst (get_data_sources server_create_fails client0 st0)) = Some 500 /\
  http_status_of (fst (ask_question digest0 server_create_fails client0 5
                         {| QueryRequest.question := "SELECT 1";
                            QueryRequest.sql_query := None |} st0)) = Some 500 /\
  http_status_of (fst (ask_predefined_question server_create_fails client0 5 7
                         {| PredefinedQueryRequest.parameters := None |} st0))
    = Some 500 /\
  (* a protocol error and a failed job *)
  http_status_of (fst (ask_question digest0 server_no_handle client0 5
                         {| QueryRequest.question := "SELECT 1";
                            QueryRequest.sql_query := None |} st0)) = Some 500 /\
  http_status_of (fst (ask_question digest0 server_job_fails client0 5
                         {| QueryRequest.question := "SELECT 1";
                            QueryRequest.sql_query := None |} st0)) = Some 500.
Proof.
  split; [|split; [|split; [|split]]].
  - now rewrite (proj1 (gateway_maps_failures_to_500 digest0 server_create_fails
                          client0 5 st0 _ (HTTPError 503)) eq_refl).
  - now rewrite (proj1 (proj2 (gateway_maps_failures_to_500 digest0
                                 server_create_fails client0 5 st0 _ (HTTPError 503)))
                   {| QueryRequest.question := "SELECT 1";
                      QueryRequest.sql_query := None |} eq_refl).
  - now rewrite (proj2 (proj2 (gateway_maps_failures_to_500 digest0
                                 server_create_fails client0 5 st0 _ (HTTPError 503)))
                   7 {| PredefinedQueryRequest.parameters := None |} eq_refl).
  - now rewrite (proj1 (proj2 (gateway_maps_failures_to_500 digest0
                                 server_no_handle client0 5 st0 _
                                 (Exception [Lit "Invalid response format. Keys: ";
                                             Str (VList [VStr "message"])])))
                   {| QueryRequest.question := "SELECT 1";
                      QueryRequest.sql_query := None |} eq_refl).
  - now rewrite (proj1 (proj2 (gateway_maps_failures_to_500 digest0
                                 server_job_fails client0 5 st0 _
                                 (Exception [Lit "Query execution failed: ";
                                             Str (VStr "syntax error")])))
                   {| QueryRequest.question := "SELECT 1";
                      QueryRequest.sql_query := None |} eq_refl).
Defined.

(** C10.  A value that [execute_query] returns is a mapping with the key
    [query_result]; hence the check of the [/ask] handler passes on it, and
    the handler answers with the response built from that value instead of
    raising "Invalid response format from Redash". *)
Theorem execute_query_result_is_wrapped (md5_hexdigest : string -> string)
    (server : nat -> response) (redash_client : RedashClient.t) (fuel : nat)
    (query : string) (data_source_id : option Z) (st st' : state) (out : value) :
  execute_query md5_hexdigest server redash_client fuel query data_source_id st =
    (Return out, st') ->
  isinstance_dict out = true /\
  contains "query_result" out = Ok true /\
  exists inner,
    getitem out "query_result" = Ok (VDict inner) /\
    forall request,
      data_source_id = None ->
      query = match QueryRequest.sql_query request with
              | Some s => if truthy (VStr s) then s else QueryRequest.question request
              | None => QueryRequest.question request
              end ->
      ask_question md5_hexdigest server redash_client fuel request st =
        (Return {| QueryResponse.answer := "Here are the results from your query";
                   QueryResponse.sql_query := VStr query;
                   QueryResponse.data := VDict inner |}, st').
Proof.
  intros H.
  destruct (returns_execute_query md5_hexdigest server redash_client fuel query
              data_source_id st out st' H) as (inner & ->).
  split; [reflexivity|]. split; [reflexivity|].
  exists inner. split; [reflexivity|].
  intros request -> ->. unfold ask_question. cbv zeta.
  unfold try_except, bind at 1. rewrite H. reflexivity.
Qed.

Lemma execute_query_result_is_wrapped_witness :
  exists data,
    fst (ask_question digest0 server_immediate client0 0
           {| QueryRequest.question := "SELECT 1";
              QueryRequest.sql_query := None |} st0) =
    Return {| QueryResponse.answer := "Here are the results from your query";
              QueryResponse.sql_query := VStr "SELECT 1";
              QueryResponse.data := VDict data |}.
Proof.
  destruct (execute_query_result_is_wrapped digest0 server_immediate client0 0
              "SELECT 1" None st0 _ _ eq_refl) as (_ & _ & inner & _ & Hask).
  exists inner.
  now rewrite (Hask {| QueryRequest.question := "SELECT 1";
                       QueryRequest.sql_query := None |} eq_refl eq_refl).
Defined.

(* ================================================================== *)
(** ** Further properties of the normalizer *)

(** A result nested under [query_result] is normalized like the result
    itself; whatever else the response holds beside that key is ignored. *)
Theorem format_nested_as_direct (raw p : dict) (query : string) :
  lookup "query_result" raw = Some (VDict p) ->
  lookup "query_result" p = None ->
  _format_query_result (VDict raw) query = _format_query_result (VDict p) query.
Proof.
  intros Hraw Hp. unfold _format_query_result.
  rewrite !get_dict, Hraw, Hp. reflexivity.
Qed.

Lemma format_nested_as_direct_witness :
  _format_query_result (VDict raw_full) "SELECT 1" =
  _format_query_result
    (VDict [("id", VInt 42);
            ("query", VStr "SELECT 1");
            ("data", VDict [("columns", VList []); ("rows", VList [VList [VInt 1]])]);
            ("data_source_id", VInt 6);
            ("runtime", VFloat 0.25%float);
            ("retrieved_at", VStr "2024-01-01T00:00:00Z")]) "SELECT 1".
Proof.
  apply (format_nested_as_direct raw_full); reflexivity.
Defined.

(** A normalized result has exactly the keys id, query, data,
    data_source_id, runtime and retrieved_at, in that order, and its data
    exactly the keys columns and rows: none is ever left out, and nothing
    else of the raw result is kept. *)
Theorem format_output_keys (raw : value) (query : string) (out : value) :
  _format_query_result raw query = Ok out ->
  exists inner data,
    out = VDict [("query_result", VDict inner)] /\
    map fst inner = ["id"; "query"; "data"; "data_source_id"; "runtime"; "retrieved_at"] /\
    lookup "data" inner = Some (VDict data) /\
    map fst data = ["columns"; "rows"].
Proof.
  intros H. apply format_ok_inv in H as (p & data & _ & _ & _ & ->).
  unfold normalized. do 2 eexists. repeat split.
Qed.

Lemma format_output_keys_witness :
  exists out inner data,
    _format_query_result (VDict raw_id_only) "" = Ok out /\
    out = VDict [("query_result", VDict inner)] /\
    map fst inner = ["id"; "query"; "data"; "data_source_id"; "runtime"; "retrieved_at"] /\
    lookup "data" inner = Some (VDict data) /\
    map fst data = ["columns"; "rows"].
Proof.
  destruct (format_output_keys (VDict raw_id_only) "" _ eq_refl)
    as (inner & data & H).
  eexists. exists inner, data. split; [reflexivity | exact H].
Defined.

(** The fields of a normalized result are those of the payload, passed
    through unchanged whatever their type; an absent id, data_source_id or
    retrieved_at becomes [None], an absent runtime 0, absent columns or rows
    the empty list. *)
Theorem format_passes_fields_through (raw p : dict) (query : string) (out : value) :
  payload raw = VDict p ->
  _format_query_result (VDict raw) query = Ok out ->
  let from d k default := match lookup k d with Some x => x | None => default end in
  let data := match from p "data" (VDict []) with VDict d => d | _ => [] end in
  field out "id" = Some (from p "id" VNone) /\
  field out "data_source_id" = Some (from p "data_source_id" VNone) /\
  field out "runtime" = Some (from p "runtime" (VInt 0)) /\
  field out "retrieved_at" = Some (from p "retrieved_at" VNone) /\
  data_field out "columns" = Some (from data "columns" (VList [])) /\
  data_field out "rows" = Some (from data "rows" (VList [])).
Proof.
  intros Hp H. apply format_ok_inv in H as (p' & data' & Hget & _ & Hdata & ->).
  rewrite format_payload in Hget by exact query. rewrite Hp in Hget.
  injection Hget as <-. cbv beta zeta. rewrite Hdata.
  unfold normalized. repeat split.
Qed.

Lemma format_passes_fields_through_witness :
  exists out,
    _format_query_result (VDict raw_full) "" = Ok out /\
    field out "id" = Some (VInt 42) /\
    field out "runtime" = Some (VFloat 0.25%float) /\
    data_field out "rows" = Some (VList [VList [VInt 1]]).
Proof.
  eexists. split; [reflexivity|].
  destruct (format_passes_fields_through raw_full _ "" _ eq_refl eq_refl)
    as (Hid & _ & Hrt & _ & _ & Hrows).
  split; [exact Hid | split; [exact Hrt | exact Hrows]].
Defined.

(** The query text of a normalized result is the text given by the caller
    when that is not empty; with an empty text it is the payload's own
    [query] field, or the empty string when the payload has none. *)
Theorem format_query_text (raw p : dict) (query : string) (out : value) :
  payload raw = VDict p ->
  _format_query_result (VDict raw) query = Ok out ->
  (query <> "" -> field out "query" = Some (VStr query)) /\
  (query = "" ->
   field out "query" =
     Some match lookup "query" p with Some x => x | None => VStr "" end).
Proof.
  intros Hp H. apply format_ok_inv in H as (p' & data' & Hget & _ & _ & ->).
  rewrite format_payload in Hget by exact query. rewrite Hp in Hget.
  injection Hget as <-. unfold normalized, field. cbn [lookup String.eqb Ascii.eqb Bool.eqb].
  split.
  - intros Hq. apply String.eqb_neq in Hq. cbn [truthy]. now rewrite Hq.
  - intros ->. reflexivity.
Qed.

Lemma format_query_text_witness :
  (exists out, _format_query_result (VDict raw_full) "SELECT 2" = Ok out /\
               field out "query" = Some (VStr "SELECT 2")) /\
  (exists out, _format_query_result (VDict raw_full) "" = Ok out /\
               field out "query" = Some (VStr "SELECT 1")).
Proof.
  split; eexists; (split; [reflexivity|]).
  - apply (proj1 (format_query_text raw_full _ "SELECT 2" _ eq_refl eq_refl)).
    discriminate.
  - apply (proj2 (format_query_text raw_full _ "" _ eq_refl eq_refl)).
    reflexivity.
Defined.

(* ================================================================== *)
(** ** Further properties of the polling loop *)

Section PollingShape.

Variable server : nat -> response.
Variable self : RedashClient.t.
Variable job_id : value.

Local Abbreviation fetch := (status_fetch self job_id).
Local Abbreviation poll := (_poll_job_status server self).

(** One iteration, for an arbitrary answer. *)
Lemma poll_unfold (fuel : nat) (st : state) :
  poll (S fuel) job_id st =
  let answer := server (calls st) in
  let st1 := {| calls := S (calls st); trace := trace st ++ [fetch] |} in
  if http_error (status_code answer) then (Raise (HTTPError (status_code answer)), st1)
  else
    match body answer with
    | None => (Raise JSONDecodeError, st1)
    | Some status_data =>
        match getitem status_data "job" with
        | Err e => (Raise e, st1)
        | Ok job =>
            match getitem job "status" with
            | Err e => (Raise e, st1)
            | Ok status =>
                if eq_int status QUERY_STATUS.COMPLETED then (Return job, st1)
                else if eq_int status QUERY_STATUS.FAILED then
                  match get job "error" (VStr "Unknown error") with
                  | Ok error =>
                      (Raise (Exception [Lit "Query execution failed: "; Str error]), st1)
                  | Err e => (Raise e, st1)
                  end
                else
                  poll fuel job_id
                    {| calls := S (calls st);
                       trace := trace st ++ [fetch; Sleep POLL_INTERVAL] |}
            end
        end
    end.
Proof.
  destruct (job_status (server (calls st))) as [[job status]|] eqn:Hjs.
  - rewrite (poll_tick _ _ _ _ _ _ _ Hjs).
    apply job_status_inv in Hjs as (sd & j & Hc & Hb & Hj & -> & Hs).
    cbv zeta. rewrite Hc, Hb, Hj. cbn [getitem]. rewrite Hs. reflexivity.
  - cbn [_poll_job_status]. unfold requests_get.
    rewrite run_exchange_status. cbv zeta. fold fetch.
    unfold job_status in Hjs.
    destruct (http_error (status_code (server (calls st)))); [reflexivity|].
    unfold bind at 1. unfold json_of.
    destruct (body (server (calls st))) as [sd|]; [|reflexivity].
    cbn [lift ret]. unfold bind at 1.
    destruct (getitem sd "job") as [job|e]; [|reflexivity].
    cbn [lift ret]. unfold bind at 1.
    destruct (getitem job "status") as [status|e]; [discriminate | reflexivity].
Qed.

End PollingShape.

(** Whatever the service answers, the wait only ever fetches the status of
    its job and sleeps [POLL_INTERVAL] after a fetch: while it is running
    after [fuel] iterations it has fetched and slept [fuel] times; when it
    has left, it fetched once more than it slept and did not sleep after
    the last fetch. *)
Theorem poll_log_shape (server : nat -> response) (self : RedashClient.t)
    (job_id : value) (fuel : nat) (st : state) :
  let run := _poll_job_status server self fuel job_id st in
  exists n,
    (fst run = Running /\ n = fuel /\
     calls (snd run) = (calls st + n)%nat /\
     trace (snd run) = trace st ++ ticks (status_fetch self job_id) n) \/
    (fst run <> Running /\ (n < fuel)%nat /\
     calls (snd run) = S (calls st + n) /\
     trace (snd run) = trace st ++ waited self job_id n).
Proof.
  cbv zeta. change (poll_log self job_id fuel st
                      (_poll_job_status server self fuel job_id st)).
  revert st. induction fuel as [|fuel IH]; intros st.
  - exists 0%nat. left. cbn. rewrite app_nil_r. repeat split. lia.
  - rewrite poll_unfold. cbv zeta.
    assert (Hleft : forall (r : outcome exn value),
               r <> Running ->
               poll_log self job_id (S fuel) st
                 (r, {| calls := S (calls st);
                        trace := trace st ++ [status_fetch self job_id] |})).
    { intros r Hr. exists 0%nat. right. cbn [fst snd calls trace waited ticks app].
      repeat split; [assumption | lia | lia]. }
    destruct (http_error (status_code (server (calls st)))); [apply Hleft; discriminate|].
    destruct (body (server (calls st))) as [sd|]; [|apply Hleft; discriminate].
    destruct (getitem sd "job") as [job|e]; [|apply Hleft; discriminate].
    destruct (getitem job "status") as [status|e]; [|apply Hleft; discriminate].
    destruct (eq_int status QUERY_STATUS.COMPLETED); [apply Hleft; discriminate|].
    destruct (eq_int status QUERY_STATUS.FAILED).
    { destruct (get job "error" (VStr "Unknown error")); apply Hleft; discriminate. }
    clear Hleft.
    destruct (IH {| calls := S (calls st);
                    trace := trace st ++ [status_fetch self job_id; Sleep POLL_INTERVAL] |})
      as (n & [(Hr & Hn & Hc & Ht) | (Hr & Hn & Hc & Ht)]); exists (S n).
    + left. cbn [calls trace] in *. repeat split; trivial; [lia | lia |].
      rewrite Ht, <- app_assoc. reflexivity.
    + right. cbn [calls trace] in *. repeat split; trivial; [lia | lia |].
      rewrite Ht, <- app_assoc. reflexivity.
Qed.

(** After [n] pending answers, an answer that is not a job status ends the
    wait at once, without a further sleep: with [HTTPError] on an error
    status, [JSONDecodeError] on a body that is not JSON, [KeyError] on a
    mapping without [job] or a job without [status]. *)
Theorem poll_stops_on_bad_answer (server : nat -> response) (self : RedashClient.t)
    (job_id : value) (st : state) (n fuel : nat) :
  (forall k, (k < n)%nat -> pending (server (calls st + k)%nat) = true) ->
  (n < fuel)%nat ->
  let answer := server (calls st + n)%nat in
  let st' := {| calls := S (calls st + n);
                trace := trace st ++ waited self job_id n |} in
  let run := _poll_job_status server self fuel job_id st in
  (http_error (status_code answer) = true ->
   run = (Raise (HTTPError (status_code answer)), st')) /\
  (http_error (status_code answer) = false -> body answer = None ->
   run = (Raise JSONDecodeError, st')) /\
  (forall status_data,
      http_error (status_code answer) = false ->
      body answer = Some (VDict status_data) ->
      lookup "job" status_data = None ->
      run = (Raise (KeyError "job"), st')) /\
  (forall status_data job,
      http_error (status_code answer) = false ->
      body answer = Some (VDict status_data) ->
      lookup "job" status_data = Some (VDict job) ->
      lookup "status" job = None ->
      run = (Raise (KeyError "status"), st')).
Proof.
  intros Hpending Hfuel answer st' run.
  assert (Hrun : run =
            _poll_job_status server self (S (fuel - S n)) job_id
              {| calls := calls st + n;
                 trace := trace st ++ ticks (status_fetch self job_id) n |}).
  { unfold run. replace fuel with (n + S (fuel - S n))%nat at 1 by lia.
    now apply poll_pending_prefix. }
  rewrite Hrun, poll_unfold. cbv zeta. cbn [calls trace]. fold answer.
  unfold st', waited. rewrite <- app_assoc.
  split; [|split; [|split]].
  - now intros ->.
  - now intros -> ->.
  - intros sd -> -> Hjob. cbn [getitem]. now rewrite Hjob.
  - intros sd job -> -> Hjob Hstatus. cbn [getitem]. rewrite Hjob.
    cbn [getitem]. now rewrite Hstatus.
Qed.

Lemma poll_stops_on_bad_answer_witness :
  _poll_job_status server_malformed_status client0 5 (VStr "abc") st0 =
    (Raise (KeyError "job"),
     {| calls := 2; trace := waited client0 (VStr "abc") 1 |}) /\
  _poll_job_status (script [] unavailable) client0 5 (VStr "abc") st0 =
    (Raise (HTTPError 503),
     {| calls := 1; trace := waited client0 (VStr "abc") 0 |}).
Proof.
  split.
  - apply (poll_stops_on_bad_answer server_malformed_status client0 (VStr "abc")
             st0 1 5) with (status_data := [("message", VStr "gone")]);
      try reflexivity; try lia.
    intros [|k] Hk; [reflexivity | lia].
  - apply (poll_stops_on_bad_answer (script [] unavailable) client0 (VStr "abc")
             st0 0 5); try reflexivity; lia.
Defined.

(* ================================================================== *)
(** ** The asynchronous path *)

Section Waiting.

Variable md5_hexdigest : string -> string.
Variable server : nat -> response.
Variable self : RedashClient.t.

Lemma run_exchange_json {A} (r : request) (k : value -> M exn A) (st : state)
    (v : value) :
  answers_json server (calls st) v ->
  bind (requests server r)
       (fun response =>
          bind (lift (raise_for_status response))
               (fun _ => bind (lift (json_of response)) k)) st =
  k v {| calls := S (calls st); trace := trace st ++ [Http r] |}.
Proof. intros (code & Hs & Hc). eapply run_exchange; eassumption. Qed.

Lemma poll_completed (fuel n : nat) (job_id : value) (st : state) (job : dict) :
  completes_after server (calls st) n job ->
  (n < fuel)%nat ->
  _poll_job_status server self fuel job_id st =
    (Return (VDict job),
     {| calls := S (calls st + n); trace := trace st ++ waited self job_id n |}).
Proof.
  intros (Hpending & status & Hjob & Hc) Hfuel.
  replace fuel with (n + S (fuel - S n))%nat by lia.
  rewrite (poll_pending_prefix server self job_id n _ st Hpending).
  erewrite poll_tick by (cbn [calls]; exact Hjob). cbv zeta. cbn [calls trace].
  rewrite Hc. unfold waited. now rewrite <- app_assoc.
Qed.

Lemma poll_failed (fuel n : nat) (job_id : value) (st : state) (job : dict) :
  fails_after server (calls st) n job ->
  (n < fuel)%nat ->
  _poll_job_status server self fuel job_id st =
    (Raise (Exception
              [Lit "Query execution failed: ";
               Str match lookup "error" job with
                   | Some x => x
                   | None => VStr "Unknown error"
                   end]),
     {| calls := S (calls st + n); trace := trace st ++ waited self job_id n |}).
Proof.
  intros (Hpending & status & Hjob & Hc & Hf) Hfuel.
  replace fuel with (n + S (fuel - S n))%nat by lia.
  rewrite (poll_pending_prefix server self job_id n _ st Hpending).
  erewrite poll_tick by (cbn [calls]; exact Hjob). cbv zeta. cbn [calls trace].
  rewrite Hc, Hf. cbn [get]. unfold waited. now rewrite <- app_assoc.
Qed.

Lemma wait_and_fetch_completed (fuel n : nat) (job_id : value) (query : string)
    (st : state) (job : dict) (result_id result_data : value) :
  completes_after server (calls st) n job ->
  lookup "query_result_id" job = Some result_id ->
  answers_json server (S (calls st + n)) result_data ->
  (n < fuel)%nat ->
  wait_and_fetch server self fuel job_id query st =
    (outcome_of (_format_query_result result_data query),
     {| calls := S (S (calls st + n));
        trace := trace st ++ waited self job_id n ++ [result_fetch self result_id] |}).
Proof.
  intros Hdone Hid Hfetch Hfuel. unfold wait_and_fetch.
  unfold bind at 1. rewrite (poll_completed fuel n job_id st job Hdone Hfuel).
  unfold bind at 1. cbn [lift getitem]. rewrite Hid. cbn [lift ret].
  unfold requests_get. erewrite run_exchange_json by (cbn [calls]; exact Hfetch).
  cbn [calls trace]. fold (result_fetch self result_id). rewrite <- app_assoc.
  now destruct (_format_query_result result_data query).
Qed.

Lemma wait_and_fetch_no_result_id (fuel n : nat) (job_id : value) (query : string)
    (st : state) (job : dict) :
  completes_after server (calls st) n job ->
  lookup "query_result_id" job = None ->
  (n < fuel)%nat ->
  wait_and_fetch server self fuel job_id query st =
    (Raise (KeyError "query_result_id"),
     {| calls := S (calls st + n); trace := trace st ++ waited self job_id n |}).
Proof.
  intros Hdone Hid Hfuel. unfold wait_and_fetch.
  unfold bind at 1. rewrite (poll_completed fuel n job_id st job Hdone Hfuel).
  unfold bind at 1. cbn [lift getitem]. rewrite Hid. reflexivity.
Qed.

Lemma wait_and_fetch_failed (fuel n : nat) (job_id : value) (query : string)
    (st : state) (job : dict) :
  fails_after server (calls st) n job ->
  (n < fuel)%nat ->
  wait_and_fetch server self fuel job_id query st =
    (Raise (Exception
              [Lit "Query execution failed: ";
               Str match lookup "error" job with
                   | Some x => x
                   | None => VStr "Unknown error"
                   end]),
     {| calls := S (calls st + n); trace := trace st ++ waited self job_id n |}).
Proof.
  intros Hfail Hfuel. unfold wait_and_fetch.
  unfold bind at 1. now rewrite (poll_failed fuel n job_id st job Hfail Hfuel).
Qed.

(** Up to the job handle: creation and trigger. *)
Lemma execute_query_queued (fuel : nat) (query : string) (ds : option Z) (st : state)
    (answer1 query_id : value) (answer2 handle : dict) (job_id : value) :
  answers_json server (calls st) answer1 ->
  getitem answer1 "id" = Ok query_id ->
  answers_json server (S (calls st)) (VDict answer2) ->
  lookup "query_result" answer2 = None ->
  lookup "job" answer2 = Some (VDict handle) ->
  lookup "id" handle = Some job_id ->
  execute_query md5_hexdigest server self fuel query ds st =
  wait_and_fetch server self fuel job_id query
    {| calls := S (S (calls st));
       trace := trace st ++
                [create_post md5_hexdigest self query (effective_data_source self ds);
                 trigger_post self query_id None] |}.
Proof.
  intros H1 Hid H2 Hq Hj Hh.
  unfold execute_query, requests_post. cbv zeta.
  rewrite (run_exchange_json _ _ st answer1 H1).
  rewrite (run_lift _ _ _ _ Hid).
  erewrite run_exchange_json by (cbn [calls]; exact H2).
  unfold bind at 1. cbn [lift contains ret]. rewrite Hq.
  unfold bind at 1. cbn [lift contains ret]. rewrite Hj.
  unfold bind at 1. cbn [lift getitem ret]. rewrite Hj.
  unfold bind at 1. cbn [lift getitem ret]. rewrite Hh.
  cbn [calls trace]. rewrite <- app_assoc. reflexivity.
Qed.

Lemma execute_predefined_queued (fuel : nat) (query_id : Z) (parameters : option dict)
    (st : state) (answer handle : dict) (job_id : value) :
  answers_json server (calls st) (VDict answer) ->
  lookup "job" answer = Some (VDict handle) ->
  lookup "id" handle = Some job_id ->
  execute_predefined_query server self fuel query_id parameters st =
  wait_and_fetch server self fuel job_id ""
    {| calls := S (calls st);
       trace := trace st ++
                [trigger_post self (VInt query_id)
                   (Some match parameters with
                         | Some (kv :: p) => VDict [("parameters", VDict (kv :: p))]
                         | _ => VDict []
                         end)] |}.
Proof.
  intros H Hj Hh.
  unfold execute_predefined_query, requests_post. cbv zeta.
  erewrite run_exchange_json by exact H.
  unfold bind at 1. cbn [lift contains ret]. rewrite Hj. cbn [negb].
  unfold bind at 1. cbn [lift getitem ret]. rewrite Hj.
  unfold bind at 1. cbn [lift getitem ret]. rewrite Hh.
  unfold trigger_post. now destruct parameters as [[|kv p]|].
Qed.

End Waiting.

(** The asynchronous path of [execute_query].  When the creation succeeds,
    the trigger answers with a job handle and no result, the job is pending
    for [n] status fetches and then completed with a result id, and the
    result is served, the run is: the two POSTs, [n + 1] status fetches
    with [n] sleeps between them, one fetch of the result by the id the job
    named; its outcome is that of normalizing the fetched result with the
    query text. *)
Theorem execute_query_polls_then_fetches (md5_hexdigest : string -> string)
    (server : nat -> response) (self : RedashClient.t) (fuel n : nat)
    (query : string) (data_source_id : option Z) (st : state)
    (answer1 query_id : value) (answer2 handle : dict) (job_id : value)
    (job : dict) (result_id result_data : value) :
  answers_json server (calls st) answer1 ->
  getitem answer1 "id" = Ok query_id ->
  answers_json server (S (calls st)) (VDict answer2) ->
  lookup "query_result" answer2 = None ->
  lookup "job" answer2 = Some (VDict handle) ->
  lookup "id" handle = Some job_id ->
  completes_after server (S (S (calls st))) n job ->
  lookup "query_result_id" job = Some result_id ->
  answers_json server (S (S (S (calls st + n)))) result_data ->
  (n < fuel)%nat ->
  execute_query md5_hexdigest server self fuel query data_source_id st =
    (outcome_of (_format_query_result result_data query),
     {| calls := S (S (S (S (calls st + n))));
        trace := trace st ++
                 [create_post md5_hexdigest self query
                    (effective_data_source self data_source_id);
                  trigger_post self query_id None] ++
                 waited self job_id n ++ [result_fetch self result_id] |}).
Proof.
  intros H1 Hid H2 Hq Hj Hh Hdone Hrid Hfetch Hfuel.
  rewrite (execute_query_queued md5_hexdigest server self fuel query data_source_id st
             answer1 query_id answer2 handle job_id H1 Hid H2 Hq Hj Hh).
  erewrite wait_and_fetch_completed; [| exact Hdone | exact Hrid | exact Hfetch | exact Hfuel].
  cbn [calls trace]. now rewrite <- app_assoc.
Qed.

Lemma execute_query_polls_then_fetches_witness :
  exists out,
    execute_query digest0 server_async client0 2 "SELECT name FROM users" None st0 =
      (Return out,
       {| calls := 5;
          trace := [create_post digest0 client0 "SELECT name FROM users" 6;
                    trigger_post client0 (VInt 17) None] ++
                   waited client0 (VStr "abc") 1 ++
                   [result_fetch client0 (VInt 99)] |}) /\
    field out "id" = Some (VInt 99).
Proof.
  eexists. split.
  - apply (execute_query_polls_then_fetches digest0 server_async client0 2 1
             "SELECT name FROM users" None st0 (VDict [("id", VInt 17)]) (VInt 17)
             [("job", VDict [("id", VStr "abc")])] [("id", VStr "abc")] (VStr "abc")
             [("status", VInt 3); ("query_result_id", VInt 99)] (VInt 99) stored_result);
      try reflexivity; try (exists 200; split; reflexivity); try lia.
    split.
    + intros [|k] Hk; [reflexivity | lia].
    + exists (VInt 3). split; reflexivity.
  - reflexivity.
Defined.

(** A job that ends in the failed state makes [execute_query] raise
    "Query execution failed: " with the job's error (or "Unknown error");
    the result is never fetched. *)
Theorem execute_query_job_failed (md5_hexdigest : string -> string)
    (server : nat -> response) (self : RedashClient.t) (fuel n : nat)
    (query : string) (data_source_id : option Z) (st : state)
    (answer1 query_id : value) (answer2 handle : dict) (job_id : value) (job : dict) :
  answers_json server (calls st) answer1 ->
  getitem answer1 "id" = Ok query_id ->
  answers_json server (S (calls st)) (VDict answer2) ->
  lookup "query_result" answer2 = None ->
  lookup "job" answer2 = Some (VDict handle) ->
  lookup "id" handle = Some job_id ->
  fails_after server (S (S (calls st))) n job ->
  (n < fuel)%nat ->
  let e :=
    Exception [Lit "Query execution failed: ";
               Str match lookup "error" job with
                   | Some x => x
                   | None => VStr "Unknown error"
                   end] in
  execute_query md5_hexdigest server self fuel query data_source_id st =
    (Raise e,
     {| calls := S (S (S (calls st + n)));
        trace := trace st ++
                 [create_post md5_hexdigest self query
                    (effective_data_source self data_source_id);
                  trigger_post self query_id None] ++
                 waited self job_id n |}) /\
  QueryExecutionError e.
Proof.
  intros H1 Hid H2 Hq Hj Hh Hfail Hfuel e. split; [|constructor].
  rewrite (execute_query_queued md5_hexdigest server self fuel query data_source_id st
             answer1 query_id answer2 handle job_id H1 Hid H2 Hq Hj Hh).
  erewrite wait_and_fetch_failed; [| exact Hfail | exact Hfuel].
  cbn [calls trace]. now rewrite <- app_assoc.
Qed.

Lemma execute_query_job_failed_witness :
  execute_query digest0 server_job_fails client0 1 "SELECT 1" None st0 =
    (Raise (Exception [Lit "Query execution failed: "; Str (VStr "syntax error")]),
     {| calls := 3;
        trace := [create_post digest0 client0 "SELECT 1" 6;
                  trigger_post client0 (VInt 17) None] ++
                 waited client0 (VStr "abc") 0 |}).
Proof.
  apply (execute_query_job_failed digest0 server_job_fails client0 1 0
           "SELECT 1" None st0 (VDict [("id", VInt 17)]) (VInt 17)
           [("job", VDict [("id", VStr "abc")])] [("id", VStr "abc")] (VStr "abc")
           [("status", VInt 4); ("error", VStr "syntax error")]);
    try reflexivity; try (exists 200; split; reflexivity); try lia.
  split.
  - intros k Hk. lia.
  - exists (VInt 4). repeat split.
Defined.

(** A job that completes without a [query_result_id] makes [execute_query]
    raise [KeyError]; no result is fetched. *)
Theorem execute_query_completed_without_result_id (md5_hexdigest : string -> string)
    (server : nat -> response) (self : RedashClient.t) (fuel n : nat)
    (query : string) (data_source_id : option Z) (st : state)
    (answer1 query_id : value) (answer2 handle : dict) (job_id : value) (job : dict) :
  answers_json server (calls st) answer1 ->
  getitem answer1 "id" = Ok query_id ->
  answers_json server (S (calls st)) (VDict answer2) ->
  lookup "query_result" answer2 = None ->
  lookup "job" answer2 = Some (VDict handle) ->
  lookup "id" handle = Some job_id ->
  completes_after server (S (S (calls st))) n job ->
  lookup "query_result_id" job = None ->
  (n < fuel)%nat ->
  execute_query md5_hexdigest server self fuel query data_source_id st =
    (Raise (KeyError "query_result_id"),
     {| calls := S (S (S (calls st + n)));
        trace := trace st ++
                 [create_post md5_hexdigest self query
                    (effective_data_source self data_source_id);
                  trigger_post self query_id None] ++
                 waited self job_id n |}).
Proof.
  intros H1 Hid H2 Hq Hj Hh Hdone Hrid Hfuel.
  rewrite (execute_query_queued md5_hexdigest server self fuel query data_source_id st
             answer1 query_id answer2 handle job_id H1 Hid H2 Hq Hj Hh).
  erewrite wait_and_fetch_no_result_id; [| exact Hdone | exact Hrid | exact Hfuel].
  cbn [calls trace]. now rewrite <- app_assoc.
Qed.

Lemma execute_query_completed_without_result_id_witness :
  fst (execute_query digest0 server_no_result_id client0 1 "SELECT 1" None st0) =
  Raise (KeyError "query_result_id").
Proof.
  rewrite (execute_query_completed_without_result_id digest0 server_no_result_id
             client0 1 0 "SELECT 1" None st0 (VDict [("id", VInt 17)]) (VInt 17)
             [("job", VDict [("id", VStr "abc")])] [("id", VStr "abc")] (VStr "abc")
             [("status", VInt 3)]);
    try reflexivity; try (exists 200; split; reflexivity); try lia.
  split.
  - intros k Hk. lia.
  - exists (VInt 3). split; reflexivity.
Defined.

(** The path of a predefined query: one POST with the parameters, then the
    wait and the fetch of the result; the result is normalized with the
    empty query text, so its [query] is the one the service stored. *)
Theorem execute_predefined_polls_then_fetches (server : nat -> response)
    (self : RedashClient.t) (fuel n : nat) (query_id : Z) (parameters : option dict)
    (st : state) (answer handle : dict) (job_id : value) (job : dict)
    (result_id result_data : value) :
  answers_json server (calls st) (VDict answer) ->
  lookup "job" answer = Some (VDict handle) ->
  lookup "id" handle = Some job_id ->
  completes_after server (S (calls st)) n job ->
  lookup "query_result_id" job = Some result_id ->
  answers_json server (S (S (calls st + n))) result_data ->
  (n < fuel)%nat ->
  execute_predefined_query server self fuel query_id parameters st =
    (outcome_of (_format_query_result result_data ""),
     {| calls := S (S (S (calls st + n)));
        trace := trace st ++
                 [trigger_post self (VInt query_id)
                    (Some match parameters with
                          | Some (kv :: p) => VDict [("parameters", VDict (kv :: p))]
                          | _ => VDict []
                          end)] ++
                 waited self job_id n ++ [result_fetch self result_id] |}).
Proof.
  intros H Hj Hh Hdone Hrid Hfetch Hfuel.
  rewrite (execute_predefined_queued server self fuel query_id parameters st
             answer handle job_id H Hj Hh).
  erewrite wait_and_fetch_completed; [| exact Hdone | exact Hrid | exact Hfetch | exact Hfuel].
  cbn [calls trace]. now rewrite <- app_assoc.
Qed.

Lemma execute_predefined_polls_then_fetches_witness :
  exists out,
    execute_predefined_query server_predefined client0 1 7 None st0 =
      (Return out,
       {| calls := 3;
          trace := [trigger_post client0 (VInt 7) (Some (VDict []))] ++
                   waited client0 (VStr "abc") 0 ++
                   [result_fetch client0 (VInt 99)] |}) /\
    field out "query" = Some (VStr "SELECT name FROM users").
Proof.
  eexists. split.
  - apply (execute_predefined_polls_then_fetches server_predefined client0 1 0 7 None
             st0 [("job", VDict [("id", VStr "abc")])] [("id", VStr "abc")] (VStr "abc")
             [("status", VInt 3); ("query_result_id", VInt 99)] (VInt 99) stored_result);
      try reflexivity; try (exists 200; split; reflexivity); try lia.
    split.
    + intros k Hk. lia.
    + exists (VInt 3). split; reflexivity.
  - reflexivity.
Defined.

(** A trigger answer that has the key [query_result] is normalized at
    once, whatever the fuel and whether or not it also carries a job
    handle: the run is the two POSTs, and nothing is polled. *)
Theorem execute_query_result_before_job (md5_hexdigest : string -> string)
    (server : nat -> response) (self : RedashClient.t) (fuel : nat)
    (query : string) (data_source_id : option Z) (st : state)
    (answer1 query_id : value) (answer2 : dict) (query_result : value) :
  answers_json server (calls st) answer1 ->
  getitem answer1 "id" = Ok query_id ->
  answers_json server (S (calls st)) (VDict answer2) ->
  lookup "query_result" answer2 = Some query_result ->
  execute_query md5_hexdigest server self fuel query data_source_id st =
    (outcome_of (_format_query_result (VDict answer2) query),
     {| calls := S (S (calls st));
        trace := trace st ++
                 [create_post md5_hexdigest self query
                    (effective_data_source self data_source_id);
                  trigger_post self query_id None] |}).
Proof.
  intros H1 Hid H2 Hq.
  unfold execute_query, requests_post. cbv zeta.
  rewrite (run_exchange_json server _ _ st answer1 H1).
  rewrite (run_lift _ _ _ _ Hid).
  erewrite run_exchange_json by (cbn [calls]; exact H2).
  unfold bind at 1. cbn [lift contains ret]. rewrite Hq.
  cbn [calls trace]. rewrite <- app_assoc.
  now destruct (_format_query_result (VDict answer2) query).
Qed.

Lemma execute_query_result_before_job_witness :
  exists out,
    execute_query digest0 server_both client0 0 "SELECT 1" None st0 =
      (Return out,
       {| calls := 2;
          trace := [create_post digest0 client0 "SELECT 1" 6;
                    trigger_post client0 (VInt 17) None] |}) /\
    field out "id" = Some (VInt 5).
Proof.
  eexists. split.
  - apply (execute_query_result_before_job digest0 server_both client0 0 "SELECT 1"
             None st0 (VDict [("id", VInt 17)]) (VInt 17)
             [("job", VDict [("id", VStr "abc")]);
              ("query_result", VDict [("id", VInt 5)])]
             (VDict [("id", VInt 5)]));
      try reflexivity; exists 200; split; reflexivity.
  - reflexivity.
Defined.

Section FirstRequest.

Variable md5_hexdigest : string -> string.
Variable server : nat -> response.
Variable self : RedashClient.t.

Lemma execute_query_first_event (fuel : nat) (query : string) (ds : option Z)
    (st : state) :
  exists rest,
    trace (snd (execute_query md5_hexdigest server self fuel query ds st)) =
    trace st ++ create_post md5_hexdigest self query (effective_data_source self ds) :: rest.
Proof.
  unfold execute_query, requests_post. cbv zeta.
  rewrite run_exchange_status. cbv zeta.
  fold (effective_data_source self ds). unfold _get_query_hash.
  fold (create_post md5_hexdigest self query (effective_data_source self ds)).
  destruct (http_error (status_code (server (calls st)))).
  - exists []. reflexivity.
  - match goal with
    | |- context [snd (?m ?s)] =>
        assert (Hg : guarded server m);
        [| destruct (Hg s) as (_ & (evs & Hevs) & _);
           exists evs; rewrite Hevs; cbn [trace];
           now rewrite <- app_assoc ]
    end.
    guarded_step. apply guarded_wait_and_fetch.
Qed.

End FirstRequest.


(* ================================================================== *)
(** ** What the client can fail with *)

Section Raises.

Variable server : nat -> response.















End Raises.


Section ClientFailures.

Variable md5_hexdigest : string -> string.
Variable server : nat -> response.
Variable self : RedashClient.t.






End ClientFailures.



(** An exchange of a run of [execute_predefined_query] or of
    [list_data_sources] that is answered with an error status ends the run
    with [HTTPError]. *)
Theorem predefined_and_listing_upstream_errors (server : nat -> response)
    (self : RedashClient.t) (fuel : nat) (query_id : Z) (parameters : option dict)
    (st : state) (k : nat) :
  http_error (status_code (server k)) = true ->
  let run := execute_predefined_query server self fuel query_id parameters st in
  let listing := list_data_sources server self st in
  ((calls st <= k < calls (snd run))%nat ->
   exists code, fst run = Raise (HTTPError code)) /\
  ((calls st <= k < calls (snd listing))%nat ->
   exists code, fst listing = Raise (HTTPError code)).
Proof.
  intros Hbad run listing. split; intros Hk.
  - destruct (guarded_execute_predefined_query server self fuel query_id parameters st)
      as (_ & _ & Herr).
    exact (Herr k Hk Hbad).
  - assert (Hg : guarded server (list_data_sources server self)).
    { unfold list_data_sources, requests_get. guarded_step. }
    destruct (Hg st) as (_ & _ & Herr). exact (Herr k Hk Hbad).
Qed.

Lemma predefined_and_listing_upstream_errors_witness :
  (exists code,
      fst (execute_predefined_query server_create_fails client0 1 7 None st0) =
      Raise (HTTPError code)) /\
  (exists code,
      fst (list_data_sources server_create_fails client0 st0) = Raise (HTTPError code)).
Proof.
  destruct (predefined_and_listing_upstream_errors server_create_fails client0 1 7
              None st0 0 eq_refl) as (H1 & H2).
  split; [apply H1 | apply H2]; vm_compute; lia.
Defined.

(* ================================================================== *)
(** ** The endpoints, case by case *)

Section Endpoints.

Variable md5_hexdigest : string -> string.
Variable server : nat -> response.
Variable redash_client : RedashClient.t.



Lemma try_except_bind_cases {E A B} (m : M exn A) (k : A -> M exn B)
    (h : exn -> M E B) (st : state) :
  try_except (bind m k) h st =
  match m st with
  | (Return a, st') => try_except (k a) h st'
  | (Raise e, st') => h e st'
  | (Running, st') => (Running, st')
  end.
Proof. unfold try_except, bind. now destruct (m st) as [[a|e|] st']. Qed.

Lemma try_except_cases {E A} (m : M exn A) (h : exn -> M E A) (st : state) :
  try_except m h st =
  match m st with
  | (Return a, st') => (Return a, st')
  | (Raise e, st') => h e st'
  | (Running, st') => (Running, st')
  end.
Proof. reflexivity. Qed.

End Endpoints.



(** The [/data-sources] endpoint makes exactly one request, a GET of
    [/api/data_sources] with the key in the [Authorization] header, and
    never waits: it answers 500 on an error status or a body that is not
    JSON, and otherwise wraps the body, whatever its shape, under
    [data_sources]. *)
Theorem get_data_sources_outcomes (server : nat -> response)
    (redash_client : RedashClient.t) (st : state) :
  let answer := server (calls st) in
  let fetch :=
    Http {| method := GET;
            url := [Lit (RedashClient.base_url redash_client); Lit "/api/data_sources"];
            json := None;
            headers := [("Authorization",
                         ("Key " ++ RedashClient.api_key redash_client)%string);
                        ("Content-Type", "application/json")] |} in
  let failure e :=
    Raise {| http_status := 500;
             detail := [Text "Failed to fetch data sources: "; StrExn e] |} in
  get_data_sources server redash_client st =
    (if http_error (status_code answer) then failure (HTTPError (status_code answer))
     else match body answer with
          | Some v => Return (VDict [("data_sources", v)])
          | None => failure JSONDecodeError
          end,
     {| calls := S (calls st); trace := trace st ++ [fetch] |}).
Proof.
  cbv zeta. unfold get_data_sources. rewrite try_except_cases.
  unfold list_data_sources, requests_get.
  unfold bind at 1. rewrite run_exchange_status. cbv zeta.
  destruct (http_error (status_code (server (calls st)))); [reflexivity|].
  unfold json_of. destruct (body (server (calls st))); reflexivity.
Qed.

(** The [/ask] endpoint runs the given SQL when there is one and it is not
    empty, and the question itself otherwise, always on the default data
    source of the client: its first request creates the query with that
    text. *)
Theorem ask_question_runs_sql_or_question (md5_hexdigest : string -> string)
    (server : nat -> response) (redash_client : RedashClient.t) (fuel : nat)
    (request : QueryRequest.t) (st : state) :
  let first sql :=
    exists rest,
      trace (snd (ask_question md5_hexdigest server redash_client fuel request st)) =
      trace st ++
        create_post md5_hexdigest redash_client sql
          (RedashClient.data_source_id redash_client) :: rest in
  (forall s, QueryRequest.sql_query request = Some s -> s <> "" -> first s) /\
  (QueryRequest.sql_query request = None \/ QueryRequest.sql_query request = Some "" ->
   first (QueryRequest.question request)).
Proof.
  cbv zeta.
  assert (H : exists rest,
             trace (snd (ask_question md5_hexdigest server redash_client fuel request st)) =
             trace st ++
               create_post md5_hexdigest redash_client (asked_sql request)
                 (RedashClient.data_source_id redash_client) :: rest).
  { destruct (execute_query_first_event md5_hexdigest server redash_client fuel
                (asked_sql request) None st) as (rest & Hrest).
    cbn [effective_data_source] in Hrest.
    exists rest. rewrite <- Hrest. unfold ask_question. cbv zeta.
    rewrite try_except_bind_cases. fold (asked_sql request).
    destruct (execute_query md5_hexdigest server redash_client fuel
                (asked_sql request) None st) as [[out|e|] st'] eqn:Hrun;
      cbn [snd]; try reflexivity.
    destruct (returns_execute_query md5_hexdigest server redash_client fuel
                (asked_sql request) None st out st' Hrun) as (inner & ->).
    reflexivity. }
  unfold asked_sql in H. split.
  - intros s Hs Hne. rewrite Hs in H. apply String.eqb_neq in Hne.
    cbn [truthy] in H. now rewrite Hne in H.
  - intros [Hs | Hs]; rewrite Hs in H; exact H.
Qed.

Lemma ask_question_runs_sql_or_question_witness :
  (exists rest,
      trace (snd (ask_question digest0 server_immediate client0 0
                    {| QueryRequest.question := "how many users?";
                       QueryRequest.sql_query := Some "SELECT 1" |} st0)) =
      create_post digest0 client0 "SELECT 1" 6 :: rest) /\
  (exists rest,
      trace (snd (ask_question digest0 server_immediate client0 0
                    {| QueryRequest.question := "how many users?";
                       QueryRequest.sql_query := Some "" |} st0)) =
      create_post digest0 client0 "how many users?" 6 :: rest).
Proof.
  split.
  - apply (proj1 (ask_question_runs_sql_or_question digest0 server_immediate client0 0
                    {| QueryRequest.question := "how many users?";
                       QueryRequest.sql_query := Some "SELECT 1" |} st0) "SELECT 1");
      [reflexivity | discriminate].
  - apply (proj2 (ask_question_runs_sql_or_question digest0 server_immediate client0 0
                    {| QueryRequest.question := "how many users?";
                       QueryRequest.sql_query := Some "" |} st0)).
    right. reflexivity.
Defined.

(* ================================================================== *)
(** ** Construction of the client *)

(** The client is built exactly when [REDASH_BASE_URL] and
    [REDASH_API_KEY] are both set and not empty; otherwise construction
    fails with the [ValueError] that names the two variables.  The data
    source id is the integer read from [REDASH_DATA_SOURCE_ID], or from "6"
    when that variable is unset; it is converted first, so a value that is
    not an integer fails with the conversion's own error even when a
    required variable is missing. *)
Theorem init_requires_url_and_key (getenv : string -> option string)
    (int_of_str : string -> res Z) :
  let id_text :=
    match getenv "REDASH_DATA_SOURCE_ID" with Some s => s | None => "6" end in
  let made := __init__ getenv int_of_str in
  (forall e, int_of_str id_text = Err e -> made = Err e) /\
  (forall id,
      int_of_str id_text = Ok id ->
      ((exists b a,
           getenv "REDASH_BASE_URL" = Some b /\ b <> "" /\
           getenv "REDASH_API_KEY" = Some a /\ a <> "") <->
       exists self, made = Ok self) /\
      (forall self,
          made = Ok self ->
          getenv "REDASH_BASE_URL" = Some (RedashClient.base_url self) /\
          getenv "REDASH_API_KEY" = Some (RedashClient.api_key self) /\
          RedashClient.data_source_id self = id /\
          RedashClient.headers self =
            [("Authorization", ("Key " ++ RedashClient.api_key self)%string);
             ("Content-Type", "application/json")]) /\
      (forall e,
          made = Err e ->
          e = ValueError
                [Lit "Missing required environment variables: REDASH_BASE_URL or REDASH_API_KEY"])).
Proof.
  cbv zeta. unfold __init__. split.
  - intros e ->. reflexivity.
  - intros id ->. cbn [res_bind].
    destruct (getenv "REDASH_BASE_URL") as [b|], (getenv "REDASH_API_KEY") as [a|];
      cbn [truthy].
    2-4: (split; [split; [intros (b' & a' & H1 & _ & H2 & _); discriminate
                         | intros (self & H); discriminate]
                 | split; [intros self H; discriminate
                          | intros e H; now injection H as <-]]).
    destruct (String.eqb_spec b "") as [->|Hb], (String.eqb_spec a "") as [->|Ha];
      cbn [negb andb].
    1-3: (split; [split; [intros (b' & a' & H1 & Hb' & H2 & Ha');
                          injection H1 as <-; injection H2 as <-; congruence
                         | intros (self & H); discriminate]
                 | split; [intros self H; discriminate
                          | intros e H; now injection H as <-]]).
    split; [split|split].
    + intros _. eexists. reflexivity.
    + intros _. exists b, a. auto.
    + intros self H. injection H as <-. repeat split.
    + intros e H. discriminate.
Qed.

Lemma init_requires_url_and_key_witness :
  __init__ env_minimal int_digit =
    Ok {| RedashClient.base_url := "http://redash.test";
          RedashClient.api_key := "secret";
          RedashClient.data_source_id := 6 |} /\
  __init__ env_empty_key int_digit =
    Err (ValueError
           [Lit "Missing required environment variables: REDASH_BASE_URL or REDASH_API_KEY"]).
Proof.
  split.
  - destruct (proj2 (init_requires_url_and_key env_minimal int_digit) 6 eq_refl)
      as ((Hmade & _) & Hfields & _).
    destruct Hmade as (self & Hself).
    { exists "http://redash.test", "secret". repeat split; discriminate. }
    rewrite Hself. f_equal.
    destruct (Hfields self Hself) as (Hb & Ha & Hid & _).
    destruct self as [b a i]. cbn in *. congruence.
  - destruct (proj2 (init_requires_url_and_key env_empty_key int_digit) 6 eq_refl)
      as (_ & _ & Herr).
    destruct (__init__ env_empty_key int_digit) as [self|e] eqn:Hmade.
    + discriminate Hmade.
    + f_equal. now apply Herr.
Defined.
